(** * Sessions and permissions of the FastAPI template

    A shallow embedding of the authorization model
    ([src/models/user], [src/api/deps/access.py]), of the token signing
    helpers ([src/lib/security.py]) and of the session middleware
    ([src/api/middlewares/session.py], [src/lib/memory/redis.py],
    [src/api/deps/auth.py]), with the properties the specification
    states about them. *)

From Stdlib Require Import String Ascii List Bool ZArith NArith Lia.
From Stdlib Require DecimalString.
Import ListNotations.
Local Open Scope string_scope.

(** ** Python values and exceptions shared by the three parts *)

(** What callers pass where a permission is expected: [with_access_to]
    takes [str | list[str]], [Role.has_permission] takes [int | str]. *)
Inductive pyarg : Type :=
| PyStr (s : string)
| PyInt (n : Z)
| PyList (l : list string).

(** The exceptions the modelled code can raise. *)
Inductive exn : Type :=
| RequiresPermission (permission : pyarg)   (* HTTP 403, lib/exceptions/rbac.py *)
| HTTPException (status : Z) (message : string)
| TypeError
| KeyError (key : string)
| AttributeError
| ValueError
| MultipleResultsFound
| IntegrityError
| ValidationError
| UnicodeDecodeError                        (* the Redis client, decoding a reply *)
| ResponseError.                            (* an error reply of the Redis server *)

(** A call either returns or raises. *)
Inductive result (A : Type) : Type :=
| Ok (a : A)
| Raise (e : exn).
Arguments Ok {A} a.
Arguments Raise {A} e.

(** * Part 1: the authorization model *)

Module Rbac.

(** [models/user/permission.py] *)
Record Permission : Type := mkPermission {
  perm_id : Z;
  perm_name : string;
  perm_title : string;
  perm_description : option string
}.

(** [models/user/role.py]; the [users] back-reference is not read by any
    permission check and is left out. *)
Record Role : Type := mkRole {
  role_id : Z;
  role_name : string;
  role_title : string;
  role_description : option string;
  role_permissions : list Permission
}.

(** [models/user/user.py]: the columns and relationships the checks read. *)
Record User : Type := mkUser {
  user_id : Z;
  email : string;
  hashed_password : string;
  is_active : bool;
  is_superuser : bool;
  deleted_at : option Z;
  permissions : list Permission;
  roles : list Role
}.

(** Python truthiness of a list: [if self.permissions:]. *)
Definition truthy_list {A : Type} (l : list A) : bool :=
  match l with
  | [] => false
  | _ :: _ => true
  end.

(** [permission == p.name]: a [str] equals a [str] character by character;
    an [int] or a [list] never equals a [str]. *)
Definition eq_name (permission : pyarg) (name : string) : bool :=
  match permission with
  | PyStr s => String.eqb s name
  | PyInt _ => false
  | PyList _ => false
  end.

(** [Role.has_permission] *)
Definition Role_has_permission (self : Role) (permission : pyarg) : bool :=
  if negb (truthy_list (role_permissions self)) then false
  else
    match permission with
    | PyInt n => existsb (fun p => Z.eqb n (perm_id p)) (role_permissions self)
    | _ => existsb (fun p => eq_name permission (perm_name p)) (role_permissions self)
    end.

(** [User.has_permission] *)
Definition has_permission (self : User) (permission : pyarg) : bool :=
  let has_perm := false in
  let has_perm :=
    if truthy_list (permissions self)
    then existsb (fun p => eq_name permission (perm_name p)) (permissions self)
    else has_perm in
  let has_perm :=
    if truthy_list (roles self)
    then has_perm || existsb (fun role => Role_has_permission role permission) (roles self)
    else has_perm in
  has_perm.

(** [User.has_role] *)
Definition has_role (self : User) (role_name' : string) : bool :=
  if negb (truthy_list (roles self)) then false
  else existsb (fun role => String.eqb (role_name role) role_name') (roles self).

(** [User.can]: returns [None] or raises [RequiresPermission]. *)
Definition can (self : User) (permission : pyarg) : result unit :=
  if is_superuser self then Ok tt
  else if negb (has_permission self permission) then Raise (RequiresPermission permission)
  else Ok tt.

(** The loop [for p in permission: user.can(p)]; the first exception
    leaves the loop. *)
Fixpoint for_each_can (user : User) (ps : list string) : result unit :=
  match ps with
  | [] => Ok tt
  | p :: rest =>
      match can user (PyStr p) with
      | Raise e => Raise e
      | Ok _ => for_each_can user rest
      end
  end.

(** The dependency built by [with_access_to(permission)], applied to the
    session user. After the branch on the argument's type, the closure
    returns [user.can(permission)] with the argument as it was given. *)
Definition with_access_to (permission : pyarg) (user : User) : result unit :=
  match
    match permission with
    | PyList ps => for_each_can user ps
    | _ => can user permission
    end
  with
  | Raise e => Raise e
  | Ok _ => can user permission
  end.

(** The two ways of holding a permission name. *)
Definition holds_directly (u : User) (name : string) : Prop :=
  exists p, In p (permissions u) /\ perm_name p = name.

Definition holds_via_role (u : User) (name : string) : Prop :=
  exists r p, In r (roles u) /\ In p (role_permissions r) /\ perm_name p = name.

(** ** Sample subjects *)

(** A subject that is no superuser and holds two permissions directly. *)
Definition editor : User :=
  mkUser 7 "editor@example.org" "$2b$12$hash" true false None
         [mkPermission 1 "posts:read" "Read posts" None;
          mkPermission 2 "posts:write" "Write posts" None]
         [].

(** A superuser without any permission or role. *)
Definition root : User :=
  mkUser 1 "root@example.org" "$2b$12$hash" true true None [] [].

End Rbac.

(** * Part 2: signed tokens ([src/lib/security.py]) *)

Module Security.

(** ** [base64.b64encode] *)

Definition b64_alphabet : list ascii :=
  list_ascii_of_string
    "ABCDEFGHIJKLMNOPQRSTUVWXYZabcdefghijklmnopqrstuvwxyz0123456789+/".

(** The character of a six-bit group. *)
Definition b64_char (sextet : N) : ascii :=
  nth (N.to_nat (N.land sextet 63)) b64_alphabet "="%char.

(** Three bytes give four characters; a last group of one or two bytes is
    padded with [=]. *)
Fixpoint b64encode (bs : list ascii) : string :=
  match bs with
  | [] => EmptyString
  | [a] =>
      let n := N.shiftl (N_of_ascii a) 16 in
      String (b64_char (N.shiftr n 18))
        (String (b64_char (N.shiftr n 12)) "==")
  | [a; b] =>
      let n := N.lor (N.shiftl (N_of_ascii a) 16) (N.shiftl (N_of_ascii b) 8) in
      String (b64_char (N.shiftr n 18))
        (String (b64_char (N.shiftr n 12))
           (String (b64_char (N.shiftr n 6)) "="))
  | a :: b :: c :: rest =>
      let n := N.lor (N.lor (N.shiftl (N_of_ascii a) 16) (N.shiftl (N_of_ascii b) 8))
                     (N_of_ascii c) in
      String (b64_char (N.shiftr n 18))
        (String (b64_char (N.shiftr n 12))
           (String (b64_char (N.shiftr n 6))
              (String (b64_char n) (b64encode rest))))
  end.

(** ** [str.split(".")] *)

(** Python's [s.split(sep)] for a one-character separator: every
    occurrence cuts, so a string with [n] separators gives [n + 1] parts. *)
Fixpoint split (sep : ascii) (s : string) : list string :=
  match s with
  | EmptyString => [EmptyString]
  | String c rest =>
      if Ascii.eqb c sep then EmptyString :: split sep rest
      else
        match split sep rest with
        | part :: parts => String c part :: parts
        | [] => [String c EmptyString]
        end
  end.

(** [sep in s] *)
Fixpoint contains_char (sep : ascii) (s : string) : bool :=
  match s with
  | EmptyString => false
  | String c rest => Ascii.eqb c sep || contains_char sep rest
  end.

Section Signing.

(** [hmac.new(key, msg, digestmod=hashlib.sha256).digest()], from the
    Python standard library: the 32 bytes of the keyed digest. *)
Variable hmac_sha256_digest : string -> string -> list ascii.

(** [create_hmac]: [str.encode("utf-8")] keeps the bytes a [string]
    already is, and the Base64 text is ASCII. *)
Definition create_hmac (secret_key message : string) : string :=
  let hmac_digest := hmac_sha256_digest secret_key message in
  let base64_encoded_hmac := b64encode hmac_digest in
  base64_encoded_hmac.

(** [create_signed_token]: [f"{value}.{signature}"] *)
Definition create_signed_token (value secret : string) : string :=
  let signature := create_hmac secret value in
  let signed_value := value ++ "." ++ signature in
  signed_value.

(** [verify_signed_token]: unpacking [value, sig = token.split(".")]
    raises [ValueError] unless there are exactly two parts. *)
Definition verify_signed_token (token secret : string) : result bool :=
  match split "."%char token with
  | [value; sig] => Ok (String.eqb sig (create_hmac secret value))
  | _ => Raise ValueError
  end.

(** The value the verification works on: the first of the two parts. *)
Definition signed_value_of (token : string) : result string :=
  match split "."%char token with
  | [value; _] => Ok value
  | _ => Raise ValueError
  end.

End Signing.

(** The number of occurrences of a character. *)
Fixpoint count_char (sep : ascii) (s : string) : nat :=
  match s with
  | EmptyString => 0
  | String c rest => (if Ascii.eqb c sep then 1 else 0) + count_char sep rest
  end.

Section Tokens.

Variable hmac_sha256_digest : string -> string -> list ascii.

(** [secrets.token_urlsafe(nbytes)]: the random text it returns for a
    number of bytes. *)
Variable token_urlsafe : nat -> string.

(** [generate_token] ([src/lib/generators.py]) *)
Definition generate_token (length : nat) (prefix : string) : string :=
  prefix ++ token_urlsafe length.

(** [generate_and_sign_token] *)
Definition generate_and_sign_token (token_length : nat) (secret_key : string) : string :=
  create_signed_token hmac_sha256_digest (generate_token token_length "") secret_key.

End Tokens.

Section Passwords.

(** [hashlib.sha256(data).hexdigest()], [bcrypt.hashpw(password, salt)]
    and [bcrypt.checkpw(password, hashed)]. *)
Variable sha256_hexdigest : string -> string.
Variable bcrypt_hashpw : string -> string -> string.
Variable bcrypt_checkpw : string -> string -> bool.

(** [verify_password]: [len] counts the bytes of the UTF-8 encoding, which
    a [string] is. *)
Definition verify_password (plain_password hashed_password : string) : bool :=
  let password_bytes := plain_password in
  let password_bytes :=
    if Nat.ltb 72 (String.length password_bytes)
    then sha256_hexdigest password_bytes
    else password_bytes in
  bcrypt_checkpw password_bytes hashed_password.

(** [get_password_hash]; [salt] is what [bcrypt.gensalt()] returns. *)
Definition get_password_hash (salt : string) (password : string) : string :=
  let password_bytes := password in
  let password_bytes :=
    if Nat.ltb 72 (String.length password_bytes)
    then sha256_hexdigest password_bytes
    else password_bytes in
  let hashed := bcrypt_hashpw password_bytes salt in
  hashed.

End Passwords.

End Security.

(** * Part 2b: generators ([src/lib/generators.py]) and settings
    ([src/config/settings.py]) *)

Module Generators.

(** [str(n)] for an [int]. *)
Definition str_int (n : Z) : string :=
  DecimalString.NilZero.string_of_int (Z.to_int n).

(** The value of one hexadecimal digit. *)
Definition hex_digit (c : ascii) : option Z :=
  let n := Z.of_N (N_of_ascii c) in
  if (48 <=? n)%Z && (n <=? 57)%Z then Some (n - 48)%Z
  else if (97 <=? n)%Z && (n <=? 102)%Z then Some (n - 87)%Z
  else if (65 <=? n)%Z && (n <=? 70)%Z then Some (n - 55)%Z
  else None.

Fixpoint int_base16_from (acc : Z) (s : string) : result Z :=
  match s with
  | EmptyString => Ok acc
  | String c rest =>
      match hex_digit c with
      | Some d => int_base16_from (acc * 16 + d)%Z rest
      | None => Raise ValueError
      end
  end.

(** [int(s, 16)] on the texts a digest gives, digits only: an empty text
    raises [ValueError], and so does any other character here (the sign,
    the [0x] prefix, the underscores and the blanks that [int] also
    reads do not occur in a digest and are not modelled). *)
Definition int_base16 (s : string) : result Z :=
  match s with
  | EmptyString => Raise ValueError
  | _ => int_base16_from 0 s
  end.

(** [s[:n]] *)
Fixpoint take (n : nat) (s : string) : string :=
  match n, s with
  | S n', String c rest => String c (take n' rest)
  | _, _ => EmptyString
  end.

(** [sep.join(parts)] *)
Fixpoint join (sep : string) (parts : list string) : string :=
  match parts with
  | [] => EmptyString
  | [p] => p
  | p :: rest => p ++ sep ++ join sep rest
  end.

(** [sorted(items)] on [str]: a stable sort by [<], which compares
    character by character. *)
Fixpoint insert_sorted (x : string) (l : list string) : list string :=
  match l with
  | [] => [x]
  | y :: rest => if String.ltb y x then y :: insert_sorted x rest else x :: y :: rest
  end.

Definition sorted (items : list string) : list string :=
  fold_right insert_sorted [] items.

Section Random.

(** [hashlib.sha256(data).hexdigest()] and
    [hmac.new(key, msg, digestmod=hashlib.sha256).hexdigest()]. *)
Variable sha256_hexdigest : string -> string.
Variable hmac_sha256_hexdigest : string -> string -> string.

(** [secrets.randbelow(n)]: the number it returns for a bound. *)
Variable randbelow : Z -> Z.

(** [generate_deterministic_id] *)
Definition generate_deterministic_id (input_str : string) : result string :=
  let hex_str := sha256_hexdigest input_str in
  match int_base16 (take 16 hex_str) with
  | Ok n => Ok (str_int n)
  | Raise e => Raise e
  end.

(** The number [generate_id] prints:
    [secrets.randbelow(upper_bound - lower_bound) + lower_bound]. For a
    [length] below 1 the lower bound is a fraction, the difference is not
    positive and [randbelow] raises [ValueError]. *)
Definition generate_id_number (length : Z) : result Z :=
  if (length <? 1)%Z then Raise ValueError
  else
    let lower_bound := (10 ^ (length - 1))%Z in
    let upper_bound := (10 ^ length - 1)%Z in
    Ok (randbelow (upper_bound - lower_bound) + lower_bound)%Z.

(** [generate_id] *)
Definition generate_id (length : Z) (prefix : string) : result string :=
  match generate_id_number length with
  | Ok n => Ok (prefix ++ str_int n)
  | Raise e => Raise e
  end.

(** [create_hmac] of [generators.py]: the hexadecimal digest. *)
Definition create_hmac (secret_key message : string) : string :=
  let signature := hmac_sha256_hexdigest secret_key message in
  signature.

(** What [generate_and_sign_hmac] returns. *)
Record signed_hmac : Type := mkSignedHmac {
  sh_nonce : string;
  sh_signature : string;
  sh_timestamp : Z;
  sh_user_id : string
}.

(** [generate_and_sign_hmac]; [timestamp] is
    [int(datetime.now().timestamp())]. *)
Definition generate_and_sign_hmac (timestamp : Z) (secret user_id : string)
  : result signed_hmac :=
  match generate_id 12 "" with
  | Raise e => Raise e
  | Ok nonce =>
      let input_set :=
        sorted ["timestamp=" ++ str_int timestamp; "nonce=" ++ nonce; "user_id=" ++ user_id] in
      Ok (mkSignedHmac nonce (create_hmac secret (join "&" input_set)) timestamp user_id)
  end.

End Random.

End Generators.

Module Settings.

(** The fields of [Settings] that its validators read. *)
Record Settings : Type := mkSettings {
  PROJECT_NAME : string;
  ENVIRONMENT : string;
  SECRET_KEY : string;
  POSTGRES_PASSWORD : string;
  FIRST_SUPERUSER_PASSWORD : string;
  EMAILS_FROM_NAME : option string
}.

(** The double quote character, as a text. *)
Definition dquote : string := String (ascii_of_nat 34) EmptyString.

(** [environment in ["local", "remote"]] *)
Definition is_local_or_remote (environment : string) : bool :=
  String.eqb environment "local" || String.eqb environment "remote".

(** [_check_default_secret]: the warnings issued, or [ValueError]. *)
Definition _check_default_secret (var_name value environment : string)
  : result (list string) :=
  if String.eqb value "changethis" then
    let message :=
      "The value of " ++ var_name ++ " is still " ++ dquote ++ "changethis" ++ dquote ++ ", "
      ++ "for security, please change it for dev, staging and production deployments." in
    if is_local_or_remote environment then Ok [message]
    else Raise ValueError
  else Ok [].

(** [_enforce_non_default_secrets]: the three checks in order, the first
    exception ends the validation. *)
Definition _enforce_non_default_secrets (self : Settings) : result (list string) :=
  match _check_default_secret "SECRET_KEY" (SECRET_KEY self) (ENVIRONMENT self) with
  | Raise e => Raise e
  | Ok w1 =>
      match _check_default_secret "POSTGRES_PASSWORD" (POSTGRES_PASSWORD self)
              (ENVIRONMENT self) with
      | Raise e => Raise e
      | Ok w2 =>
          match _check_default_secret "FIRST_SUPERUSER_PASSWORD"
                  (FIRST_SUPERUSER_PASSWORD self) (ENVIRONMENT self) with
          | Raise e => Raise e
          | Ok w3 => Ok (w1 ++ w2 ++ w3)%list
          end
      end
  end.

(** [_set_default_emails_from]: an empty or absent name is falsy. *)
Definition _set_default_emails_from (self : Settings) : Settings :=
  match EMAILS_FROM_NAME self with
  | Some (String _ _) => self
  | _ =>
      mkSettings (PROJECT_NAME self) (ENVIRONMENT self) (SECRET_KEY self)
                 (POSTGRES_PASSWORD self) (FIRST_SUPERUSER_PASSWORD self)
                 (Some (PROJECT_NAME self))
  end.

End Settings.

(** * Part 3: sessions *)

Module Session.
Import Rbac.

(** ** Session data: JSON values as Python holds them *)

(** [None], [bool], [int], [str], [list] and [dict]; a [dict] keeps its
    keys in insertion order. Floats do not occur in what the modelled code
    stores. *)
#[local] Set Warnings "-register-all".
Inductive json : Type :=
| JNull
| JBool (b : bool)
| JNum (n : Z)
| JStr (s : string)
| JArr (items : list json)
| JObj (fields : list (string * json)).

(** Truthiness, as [if value:] tests it. *)
Definition truthy (v : json) : bool :=
  match v with
  | JNull => false
  | JBool b => b
  | JNum n => negb (Z.eqb n 0)
  | JStr s => negb (String.eqb s "")
  | JArr items => truthy_list items
  | JObj fields => truthy_list fields
  end.

(** *** [dict] operations on an insertion-ordered association list *)

Section Dict.
Context {V : Type}.

(** [d.get(k)] *)
Fixpoint dict_get (k : string) (d : list (string * V)) : option V :=
  match d with
  | [] => None
  | (k', v) :: rest => if String.eqb k' k then Some v else dict_get k rest
  end.

(** [k in d] *)
Definition dict_contains (k : string) (d : list (string * V)) : bool :=
  match dict_get k d with
  | Some _ => true
  | None => false
  end.

(** [d[k] = v]: an existing key keeps its place, a new one goes last. *)
Fixpoint dict_set (k : string) (v : V) (d : list (string * V)) : list (string * V) :=
  match d with
  | [] => [(k, v)]
  | (k', v') :: rest =>
      if String.eqb k' k then (k', v) :: rest else (k', v') :: dict_set k v rest
  end.

(** The entries left by [del d[k]]. *)
Fixpoint dict_remove (k : string) (d : list (string * V)) : list (string * V) :=
  match d with
  | [] => []
  | (k', v') :: rest =>
      if String.eqb k' k then rest else (k', v') :: dict_remove k rest
  end.

End Dict.

(** [needle in haystack] for two [str]: a substring test. *)
Fixpoint is_prefix (p s : string) : bool :=
  match p, s with
  | EmptyString, _ => true
  | String a p', String b s' => Ascii.eqb a b && is_prefix p' s'
  | String _ _, EmptyString => false
  end.

Fixpoint is_substring (p s : string) : bool :=
  is_prefix p s
  || match s with
     | EmptyString => false
     | String _ s' => is_substring p s'
     end.

(** *** Python's container protocol on a value, with a [str] key *)

(** [v[k]] *)
Definition py_getitem (v : json) (k : string) : result json :=
  match v with
  | JObj fields =>
      match dict_get k fields with
      | Some x => Ok x
      | None => Raise (KeyError k)
      end
  | _ => Raise TypeError
  end.

(** [v[k] = x], giving the container after the assignment. *)
Definition py_setitem (v : json) (k : string) (x : json) : result json :=
  match v with
  | JObj fields => Ok (JObj (dict_set k x fields))
  | _ => Raise TypeError
  end.

(** [del v[k]], giving the container after the deletion. *)
Definition py_delitem (v : json) (k : string) : result json :=
  match v with
  | JObj fields =>
      if dict_contains k fields then Ok (JObj (dict_remove k fields))
      else Raise (KeyError k)
  | _ => Raise TypeError
  end.

(** [k in v] *)
Definition py_contains (k : string) (v : json) : result bool :=
  match v with
  | JObj fields => Ok (dict_contains k fields)
  | JArr items =>
      Ok (existsb (fun x => match x with JStr s => String.eqb s k | _ => false end) items)
  | JStr s => Ok (is_substring k s)
  | _ => Raise TypeError
  end.

(** [v.get(k)]: only a [dict] has the method. *)
Definition py_get (v : json) (k : string) : result json :=
  match v with
  | JObj fields =>
      match dict_get k fields with
      | Some x => Ok x
      | None => Ok JNull
      end
  | _ => Raise AttributeError
  end.

(** [str(x)] inside an f-string, for a [str] or [None]. *)
Definition py_str (x : option string) : string :=
  match x with
  | Some s => s
  | None => "None"
  end.

(** ** The world a request runs in *)

(** A Redis value, by what the client and [json.loads] make of it. The
    client is created with [decode_responses=True]
    ([src/config/db/redis.py]) and decodes every reply as UTF-8: the
    value is the text of a JSON value, or a text that is not JSON, or
    bytes that are no UTF-8 text at all. *)
Inductive blob : Type :=
| JsonText (v : json)
| Garbage (raw : string)
| NotText (raw : string).

(** [json.dumps] *)
Definition json_dumps (v : json) : blob := JsonText v.

(** [json.loads] on the text the client returned; [None] stands for
    [json.JSONDecodeError]. Bytes that are no text never get here, the
    client raises on them. *)
Definition json_loads (data : blob) : option json :=
  match data with
  | JsonText v => Some v
  | Garbage _ => None
  | NotText _ => None
  end.

(** A row of [user_sessions], joined with its user. *)
Record UserSession : Type := mkUserSession {
  us_token : option string;
  us_expiration : Z;
  us_user : User
}.

(** Calls that leave the process. *)
Inductive event : Type :=
| RedisExists (key : string)
| RedisGet (key : string)
| RedisSet (key : string) (value : blob) (ex : option Z)
| RedisDelete (key : string)
| DbSelectUserByEmail (email' : string)
| DbSelectSessionByToken (token : option string)
| DbInsertSession (row : UserSession)
| DbDeleteSession (row : UserSession).

(** [SessionIntegration]: the session identifier and the envelope
    [self.store] ([JNull] is [None]); [self.memory] is the Redis of the
    world. *)
Record SessionIntegration : Type := mkSessionIntegration {
  id : option string;
  store : json
}.

(** Objects are shared by reference: the middleware and the handler hold
    the same [SessionIntegration]. *)
Definition ref : Type := nat.

Record world : Type := mkWorld {
  redis : list (string * (blob * option Z));   (* key, value and TTL *)
  users : list User;
  user_sessions : list UserSession;
  now : Z;
  heap : ref -> SessionIntegration;
  next_ref : ref;
  request_state : list (string * ref);         (* attributes of [request.state] *)
  uuid4_values : nat -> string;                (* what [uuid.uuid4()] returns, call by call *)
  uuid4_calls : nat;
  trace : list event
}.

Definition with_redis (r : list (string * (blob * option Z))) (w : world) : world :=
  mkWorld r (users w) (user_sessions w) (now w) (heap w) (next_ref w)
          (request_state w) (uuid4_values w) (uuid4_calls w) (trace w).

Definition with_user_sessions (l : list UserSession) (w : world) : world :=
  mkWorld (redis w) (users w) l (now w) (heap w) (next_ref w)
          (request_state w) (uuid4_values w) (uuid4_calls w) (trace w).

Definition with_heap (h : ref -> SessionIntegration) (n : ref) (w : world) : world :=
  mkWorld (redis w) (users w) (user_sessions w) (now w) h n
          (request_state w) (uuid4_values w) (uuid4_calls w) (trace w).

Definition with_request_state (st : list (string * ref)) (w : world) : world :=
  mkWorld (redis w) (users w) (user_sessions w) (now w) (heap w) (next_ref w)
          st (uuid4_values w) (uuid4_calls w) (trace w).

Definition with_uuid4_calls (n : nat) (w : world) : world :=
  mkWorld (redis w) (users w) (user_sessions w) (now w) (heap w) (next_ref w)
          (request_state w) (uuid4_values w) n (trace w).

Definition log (e : event) (w : world) : world :=
  mkWorld (redis w) (users w) (user_sessions w) (now w) (heap w) (next_ref w)
          (request_state w) (uuid4_values w) (uuid4_calls w) (trace w ++ [e]).

(** ** Computations: state threaded, exceptions propagated *)

(** What a raising call did before it raised stays done. *)
Definition M (A : Type) : Type := world -> result A * world.

Definition ret {A : Type} (a : A) : M A := fun w => (Ok a, w).

Definition raise {A : Type} (e : exn) : M A := fun w => (Raise e, w).

Definition bind {A B : Type} (c : M A) (k : A -> M B) : M B :=
  fun w =>
    match c w with
    | (Ok a, w') => k a w'
    | (Raise e, w') => (Raise e, w')
    end.

Definition lift {A : Type} (r : result A) : M A := fun w => (r, w).

Declare Scope py_scope.
Delimit Scope py_scope with py.
Notation "x <- c ;; k" := (bind c (fun x => k))
  (at level 61, c at next level, right associativity) : py_scope.
Notation "c ;;; k" := (bind c (fun _ => k))
  (at level 61, right associativity) : py_scope.
Local Open Scope py_scope.

(** *** The heap *)

Definition deref (r : ref) : M SessionIntegration := fun w => (Ok (heap w r), w).

Definition assign (r : ref) (s : SessionIntegration) : M unit :=
  fun w => (Ok tt, with_heap (fun r' => if Nat.eqb r' r then s else heap w r') (next_ref w) w).

Definition alloc (s : SessionIntegration) : M ref :=
  fun w =>
    let r := next_ref w in
    (Ok r, with_heap (fun r' => if Nat.eqb r' r then s else heap w r') (S r) w).

(** [str(uuid.uuid4())] *)
Definition uuid4 : M string :=
  fun w => (Ok (uuid4_values w (uuid4_calls w)), with_uuid4_calls (S (uuid4_calls w)) w).

(** *** The Redis client (redis-py) *)

Definition redis_exists (key : string) : M bool :=
  fun w => (Ok (dict_contains key (redis w)), log (RedisExists key) w).

(** [GET]: the reply is decoded as UTF-8, and bytes that are no UTF-8
    text raise [UnicodeDecodeError] in the client. *)
Definition redis_get (key : string) : M (option blob) :=
  fun w =>
    match option_map fst (dict_get key (redis w)) with
    | Some (NotText _) => (Raise UnicodeDecodeError, log (RedisGet key) w)
    | reply => (Ok reply, log (RedisGet key) w)
    end.

(** [SET key value EX ex]: the server refuses an expire time that is not
    positive with an error reply and stores nothing. *)
Definition redis_set (key : string) (value : blob) (ex : option Z) : M unit :=
  fun w =>
    match ex with
    | Some seconds =>
        if (seconds <=? 0)%Z then (Raise ResponseError, log (RedisSet key value ex) w)
        else (Ok tt, log (RedisSet key value ex)
                       (with_redis (dict_set key (value, ex) (redis w)) w))
    | None =>
        (Ok tt, log (RedisSet key value ex)
                  (with_redis (dict_set key (value, ex) (redis w)) w))
    end.

Definition redis_delete (key : string) : M unit :=
  fun w => (Ok tt, log (RedisDelete key) (with_redis (dict_remove key (redis w)) w)).

(** ** [RedisMemory] ([src/lib/memory/redis.py]) *)

(** [_make_key]: [f"session:{session_id}"] *)
Definition _make_key (session_id : option string) : string :=
  "session:" ++ py_str session_id.

(** [RedisMemory.clear] *)
Definition memory_clear (session_id : option string) : M unit :=
  redis_delete (_make_key session_id).

(** [RedisMemory.has] *)
Definition memory_has (key : option string) : M bool :=
  let key := _make_key key in
  exists_ <- redis_exists key ;;
  ret exists_.


(** [RedisMemory.get_store]: [None] when the key is absent and when
    [json.loads] raises. *)
Definition get_store (session_id : option string) : M json :=
  let key := _make_key session_id in
  data <- redis_get key ;;
  match data with
  | None => ret JNull
  | Some data =>
      match json_loads data with
      | Some v => ret v
      | None => ret JNull
      end
  end.

(** [RedisMemory.save_store] *)
Definition save_store (session_id : option string) (data : json) (ttl : option Z) : M unit :=
  let key := _make_key session_id in
  redis_set key (json_dumps data) ttl.

(** ** [SessionIntegration] ([src/api/middlewares/session.py]) *)

(** [SessionIntegration(memory, session_id)] *)
Definition new_SessionIntegration (session_id : option string) : M ref :=
  alloc (mkSessionIntegration session_id (JObj [("store", JObj [])])).

(** The envelope once its bucket [self.store["store"]] has been mutated in
    place into [bucket]. *)
Definition envelope_with_bucket (envelope bucket : json) : json :=
  match envelope with
  | JObj fields => JObj (dict_set "store" bucket fields)
  | other => other
  end.

(** [__setitem__]: [self.store["store"][key] = value] *)
Definition setitem (self : ref) (key : string) (value : json) : M unit :=
  s <- deref self ;;
  bucket <- lift (py_getitem (store s) "store") ;;
  bucket' <- lift (py_setitem bucket key value) ;;
  assign self (mkSessionIntegration (id s) (envelope_with_bucket (store s) bucket')).

(** [__getitem__]: [self.store["store"].get(key)] *)
Definition getitem (self : ref) (key : string) : M json :=
  s <- deref self ;;
  bucket <- lift (py_getitem (store s) "store") ;;
  lift (py_get bucket key).

(** [__contains__]: [key in self.store["store"]] *)
Definition contains (self : ref) (key : string) : M bool :=
  s <- deref self ;;
  bucket <- lift (py_getitem (store s) "store") ;;
  lift (py_contains key bucket).

(** [__delitem__]: [del self.store["store"][key]] *)
Definition delitem (self : ref) (key : string) : M unit :=
  s <- deref self ;;
  bucket <- lift (py_getitem (store s) "store") ;;
  bucket' <- lift (py_delitem bucket key) ;;
  assign self (mkSessionIntegration (id s) (envelope_with_bucket (store s) bucket')).

(** [load] *)
Definition load (self : ref) : M unit :=
  s <- deref self ;;
  envelope <- get_store (id s) ;;
  assign self (mkSessionIntegration (id s) envelope).

(** [clear] *)
Definition clear (self : ref) : M unit :=
  s <- deref self ;;
  memory_clear (id s) ;;;
  assign self (mkSessionIntegration (id s) JNull).

(** [save]: the TTL is [15 * 60] seconds. *)
Definition save (self : ref) : M unit :=
  s <- deref self ;;
  save_store (id s) (store s) (Some (15 * 60)%Z).

(** ** [SessionMiddleware] ([src/api/middlewares/session.py]) *)

(** A cookie value, by what [SignatureSerializer.decode] (authx) makes of
    it: a value signed with the secret decodes to the signed dictionary;
    any other value is refused with an error text. *)
Inductive signed : Type :=
| Signed (payload : list (string * option string))
| Refused (raw : string) (err : string).

(** [self.serializer.encode] *)
Definition serializer_encode (dict_obj : list (string * option string)) : signed :=
  Signed dict_obj.

(** [self.serializer.decode]: the decoded dictionary and the error, one of
    them [None]. *)
Definition serializer_decode (token : signed)
  : option (list (string * option string)) * option string :=
  match token with
  | Signed payload => (Some payload, None)
  | Refused _ err => (None, Some err)
  end.

(** One entry of [skip_session_header]. *)
Record skip_header : Type := mkSkipHeader {
  header_name : string;
  header_value : option string
}.

(** [skip_session_header]: [None], one [dict] or a [list] of them. *)
Inductive skip_option : Type :=
| SkipNone
| SkipDict (h : skip_header)
| SkipList (hs : list skip_header).

(** The constructor arguments the middleware keeps. *)
Record SessionMiddleware : Type := mkSessionMiddleware {
  secret_key : string;
  http_only : bool;
  secure : bool;
  max_age : Z;
  session_cookie_name : string;
  session_object : string;
  skip_session_header : skip_option;
  cookie_path : string
}.

(** The [SimpleCookie] built for the session cookie. *)
Record cookie : Type := mkCookie {
  cookie_name : string;
  cookie_value : signed;
  cookie_attr_path : string;
  cookie_attr_httponly : bool;
  cookie_attr_secure : bool;
  cookie_attr_max_age : option Z
}.

(** A response header value. *)
Inductive header : Type :=
| SetSessionCookie (c : cookie)       (* [cookie.output(header="").strip()] *)
| DeleteCookie (name : string)        (* the expired, empty cookie of [delete_cookie] *)
| HeaderText (text : string)
| SetCookie (name value : string).    (* [set_cookie(name, value)], default attributes *)

Record Request : Type := mkRequest {
  request_headers : list (string * string);
  request_cookies : list (string * signed)
}.

Record Response : Type := mkResponse {
  status_code : Z;
  response_headers : list (string * header);
  body : json
}.

(** Starlette's [response.headers[key] = value]: the first header of that
    name takes the value and later ones are dropped; without one the
    header is appended. *)
Fixpoint drop_header (key : string) (hs : list (string * header)) : list (string * header) :=
  match hs with
  | [] => []
  | (k, v) :: rest =>
      if String.eqb k key then drop_header key rest else (k, v) :: drop_header key rest
  end.

Fixpoint headers_setitem (key : string) (value : header) (hs : list (string * header))
  : list (string * header) :=
  match hs with
  | [] => [(key, value)]
  | (k, v) :: rest =>
      if String.eqb k key then (k, value) :: drop_header key rest
      else (k, v) :: headers_setitem key value rest
  end.

(** Starlette's [response.delete_cookie(key)]: one more [set-cookie]
    header, with an empty value that has already expired. *)
Definition delete_cookie (key : string) (response : Response) : Response :=
  mkResponse (status_code response)
             (response_headers response ++ [("set-cookie", DeleteCookie key)])
             (body response).

(** [create_session_cookie] *)
Definition create_session_cookie (self : SessionMiddleware) (session_id : option string)
  : cookie :=
  let session_id_dict_obj := [(session_cookie_name self, session_id)] in
  let signed_session_id := serializer_encode session_id_dict_obj in
  mkCookie (session_cookie_name self) signed_session_id (cookie_path self)
           (if http_only self then true else false)
           (if secure self then true else false)
           (if Z.ltb 0 (max_age self) then Some (max_age self) else None).

(** Equality of two values that are a [str] or [None]. *)
Definition opt_eqb (a b : option string) : bool :=
  match a, b with
  | Some x, Some y => String.eqb x y
  | None, None => true
  | _, _ => false
  end.

Definition is_not_None {A : Type} (a : option A) : bool :=
  match a with
  | Some _ => true
  | None => false
  end.

(** [name.lower()] for a header name, a Latin-1 text with one byte for a
    character, as Starlette encodes it: the letters [A] to [Z], and the
    upper-case letters from 192 to 222 (215, the multiplication sign, is
    none), go to the lower-case letter 32 places further. *)
Definition lower_char (c : ascii) : ascii :=
  let n := nat_of_ascii c in
  if (Nat.leb 65 n && Nat.leb n 90)
     || (Nat.leb 192 n && Nat.leb n 222 && negb (Nat.eqb n 215))
  then ascii_of_nat (n + 32)
  else c.

Fixpoint lower (s : string) : string :=
  match s with
  | EmptyString => EmptyString
  | String c rest => String (lower_char c) (lower rest)
  end.

(** Starlette's [request.headers.get(name)]: the name asked for is put
    in lower case and compared with the names of the request as the
    server delivers them; the first header of that name answers. *)
Definition headers_get (name : string) (request : Request) : option string :=
  dict_get (lower name) (request_headers request).

(** The test made on each entry by the loop of
    [skip_session_header_check]. *)
Definition skip_header_matches (request : Request) (h : skip_header) : bool :=
  let request_header_value := headers_get (header_name h) request in
  (opt_eqb (header_value h) (Some "*") && is_not_None request_header_value)
  || opt_eqb request_header_value (header_value h).

(** [skip_session_header_check] *)
Definition skip_session_header_check (self : SessionMiddleware) (request : Request) : bool :=
  match skip_session_header self with
  | SkipNone => false
  | SkipDict h => existsb (skip_header_matches request) [h]
  | SkipList hs => existsb (skip_header_matches request) hs
  end.

(** [setattr(request.state, name, session)] *)
Definition setattr_state (name : string) (session : ref) : M unit :=
  fun w => (Ok tt, with_request_state (dict_set name session (request_state w)) w).

(** [request.state.<name>] *)
Definition getattr_state (name : string) : M ref :=
  fun w =>
    match dict_get name (request_state w) with
    | Some r => (Ok r, w)
    | None => (Raise AttributeError, w)
    end.

(** [create_session] *)
Definition create_session (self : SessionMiddleware) (cause : option string) : M ref :=
  session_id <- uuid4 ;;
  session <- new_SessionIntegration (Some session_id) ;;
  match cause with
  | Some cause => setitem session "__cause__" (JStr cause)
  | None => ret tt
  end ;;;
  setattr_state (session_object self) session ;;;
  ret session.

(** [decoded_dict.get(self.session_cookie_name)] *)
Definition decoded_get (name : string) (decoded_dict : list (string * option string))
  : option string :=
  match dict_get name decoded_dict with
  | Some v => v
  | None => None
  end.

(** [dispatch], from the cookie lookup to the call of the handler: the
    session attached to the request and the cookie to send, if any. *)
Definition dispatch_enter (self : SessionMiddleware) (request : Request)
  : M (ref * option cookie) :=
  let signed_session_id := dict_get (session_cookie_name self) (request_cookies request) in
  match signed_session_id with
  | None =>
      session <- create_session self (Some "new") ;;
      s <- deref session ;;
      ret (session, Some (create_session_cookie self (id s)))
  | Some signed_session_id =>
      match serializer_decode signed_session_id with
      | (Some decoded_dict, _) =>
          let session_id := decoded_get (session_cookie_name self) decoded_dict in
          has_session <- memory_has session_id ;;
          if negb has_session then
            session <- create_session self (Some "valid_cookie_but_no_store") ;;
            s <- deref session ;;
            ret (session, Some (create_session_cookie self (id s)))
          else
            session <- new_SessionIntegration session_id ;;
            load session ;;;
            setitem session "__cause__" (JStr "success") ;;;
            setattr_state (session_object self) session ;;;
            ret (session, None)
      | (None, err) =>
          session <- create_session self (Some ("renew after " ++ py_str err)) ;;
          s <- deref session ;;
          ret (session, Some (create_session_cookie self (id s)))
      end
  end.

(** [x is None] *)
Definition is_None (v : json) : bool :=
  match v with
  | JNull => true
  | _ => false
  end.

(** [response.headers["Set-Cookie"] = cookie_val] *)
Definition set_cookie_header (c : cookie) (response : Response) : Response :=
  mkResponse (status_code response)
             (headers_setitem "set-cookie" (SetSessionCookie c) (response_headers response))
             (body response).

(** [dispatch], after the handler has returned [response]: the three
    [if] statements, each reading [session.store] anew. *)
Definition dispatch_exit (self : SessionMiddleware) (session : ref) (cookie' : option cookie)
    (response : Response) : M Response :=
  s <- deref session ;;
  (if negb (is_None (store s)) then save session else ret tt) ;;;
  s <- deref session ;;
  let response :=
    match cookie' with
    | Some c => if negb (is_None (store s)) then set_cookie_header c response else response
    | None => response
    end in
  s <- deref session ;;
  let response :=
    if is_None (store s) then delete_cookie (session_cookie_name self) response
    else response in
  ret response.

(** [dispatch]: [call_next] is the rest of the application, which sees the
    same world and so the same session object. *)
Definition dispatch (self : SessionMiddleware) (request : Request) (call_next : M Response)
  : M Response :=
  if skip_session_header_check self request then call_next
  else
    entered <- dispatch_enter self request ;;
    let '(session, cookie') := entered in
    response <- call_next ;;
    dispatch_exit self session cookie' response.

(** A request arrives with a [request.state] of its own. *)
Definition new_request_state : M unit :=
  fun w => (Ok tt, with_request_state [] w).

(** ** The user service and the routes that use the session
    ([src/services/user/user.py], [src/api/deps/auth.py],
    [src/api/routes/auth.py]) *)

(** [datetime.now(UTC)], in seconds: the instant the world is at. *)
Definition datetime_now : M Z := fun w => (Ok (now w), w).


(** [result.unique().one_or_none()] *)
Definition one_or_none {A : Type} (rows : list A) : M (option A) :=
  match rows with
  | [] => ret None
  | [row] => ret (Some row)
  | _ => raise MultipleResultsFound
  end.

(** [UserService.get_by_session_token] *)
Definition get_by_session_token (token : option string) : M (option User) :=
  fun w =>
    let rows :=
      filter (fun row => opt_eqb (us_token row) token && Z.leb (now w) (us_expiration row))
             (user_sessions w) in
    bind (one_or_none rows)
         (fun session_data => ret (option_map us_user session_data))
         (log (DbSelectSessionByToken token) w).

(** [UserService.get_by_email]; [User] supports soft deletion. *)
Definition get_by_email (email' : string) : M (option User) :=
  fun w =>
    let rows :=
      filter (fun u => String.eqb (email u) email'
                       && match deleted_at u with None => true | Some _ => false end)
             (users w) in
    one_or_none rows (log (DbSelectUserByEmail email') w).

(** [db_session.add(user_session); await db_session.commit()]: the token
    column is not nullable. *)
Definition insert_user_session (row : UserSession) : M unit :=
  fun w =>
    match us_token row with
    | None => (Raise IntegrityError, w)
    | Some _ => (Ok tt, log (DbInsertSession row) (with_user_sessions (user_sessions w ++ [row]) w))
    end.

(** [UserService.logout] *)
Definition service_logout (session_id : option string) : M unit :=
  fun w =>
    let rows := filter (fun row => opt_eqb (us_token row) session_id) (user_sessions w) in
    bind (one_or_none rows)
         (fun user_session =>
            match user_session with
            | Some row =>
                fun w' =>
                  (Ok tt,
                   log (DbDeleteSession row)
                       (with_user_sessions
                          (filter (fun row' => negb (opt_eqb (us_token row') session_id))
                                  (user_sessions w'))
                          w'))
            | None => ret tt
            end)
         (log (DbSelectSessionByToken session_id) w).

Section Routes.

(** [User.model_validate] (pydantic) and
    [jsonable_encoder(user.model_dump())] (FastAPI). *)
Variable model_validate : json -> result User.
Variable user_payload : User -> json.

(** The body FastAPI renders for [response_model=UserPublic]. *)
Variable user_public : User -> json.

(** [verify_password] compares through bcrypt. *)
Variable verify_password : string -> string -> bool.

(** [settings.SESSION_COOKIE_MAX_AGE] *)
Variable SESSION_COOKIE_MAX_AGE : Z.

(** [get_session_user] *)
Definition get_session_user : M User :=
  session <- getattr_state "session" ;;
  s <- deref session ;;
  user_dict <- lift (py_get (store s) "user") ;;
  if truthy user_dict then lift (model_validate user_dict)
  else
    s <- deref session ;;
    user <- get_by_session_token (id s) ;;
    match user with
    | Some user =>
        setitem session "user" (user_payload user) ;;;
        ret user
    | None => raise (HTTPException 401 "Not authenticated")
    end.

(** [UserService.authenticate] *)
Definition authenticate (email' password : string) : M (option User) :=
  user <- get_by_email email' ;;
  match user with
  | None => ret None
  | Some user =>
      if negb (verify_password password (hashed_password user)) then ret None
      else if negb (is_active user) then ret None
      else ret (Some user)
  end.

(** A route returns a value together with the headers it has set on the
    [Response] FastAPI injects; a route that raises returns neither, and
    what it had set on the injected response is lost. *)

(** [login]. On a refusal [set_cookie("auth", "false")] comes before the
    [raise] and is lost with it. The [ip] and [user_agent] columns play
    no part in the session and are left out. *)
Definition login (email' password : string) : M (User * list (string * header)) :=
  session <- getattr_state "session" ;;
  user <- authenticate email' password ;;
  match user with
  | None => raise (HTTPException 401 "Invalid email or password")
  | Some user =>
      s <- deref session ;;
      today <- datetime_now ;;
      let user_session :=
        mkUserSession (id s) (today + SESSION_COOKIE_MAX_AGE)%Z user in
      insert_user_session user_session ;;;
      setitem session "user" (user_payload user) ;;;
      ret (user, [("set-cookie", SetCookie "auth" "true")])
  end.

(** [get_current_user], the route [/me]; it sets no header. *)
Definition get_current_user : M (User * list (string * header)) :=
  user <- get_session_user ;;
  ret (user, []).

(** [logout] *)
Definition logout : M (json * list (string * header)) :=
  _user <- get_session_user ;;
  session <- getattr_state "session" ;;
  s <- deref session ;;
  service_logout (id s) ;;;
  clear session ;;;
  ret (JObj [("message", JStr "Logged out successfully")],
       [("set-cookie", SetCookie "auth" "false")]).

(** An endpoint as [call_next] sees it: what the route returns becomes
    the body of a 200 response, which carries the headers the route set
    on the injected response; an [HTTPException] becomes a response with
    its status and none of those headers; any other exception goes
    through the middleware. The headers listed are those the modelled
    code sets; [content-type] and [content-length], which the framework
    adds to every response, are not listed. *)
Definition endpoint {A : Type} (render : A -> json)
    (handler : M (A * list (string * header))) : M Response :=
  fun w =>
    match handler w with
    | (Ok (a, injected), w') => (Ok (mkResponse 200 injected (render a)), w')
    | (Raise (HTTPException status message), w') =>
        (Ok (mkResponse status [] (JStr message)), w')
    | (Raise e, w') => (Raise e, w')
    end.

End Routes.

(** ** One request through the application *)

(** The middleware around the rest of the application, for a request
    that arrives with a [request.state] of its own. *)
Definition serve (self : SessionMiddleware) (request : Request) (call_next : M Response)
  : M Response :=
  new_request_state ;;;
  dispatch self request call_next.

(** ** Sample configuration and worlds *)

(** The middleware as [src/main.py] installs it, with the default
    settings. *)
Definition app_middleware : SessionMiddleware :=
  mkSessionMiddleware "change-me" true false (60 * 60 * 24 * 7) "sid" "session" SkipNone "/".

Definition sample_uuids (n : nat) : string :=
  match n with
  | 0 => "6f1c2a9e-5b0d-4c57-9a3e-0d4b7f1e2c30"
  | 1 => "b3d9e7a1-2c4f-4e8b-8f6a-91c0d2e5a7b4"
  | _ => "0a8e4c62-7d13-4f95-b2c8-5e6f7a9b0c1d"
  end.

Definition alice : User :=
  mkUser 3 "alice@example.org" "$2b$12$alice" true false None
         [mkPermission 2 "posts:write" "Write posts" None] [].

(** Nothing in Redis, one registered user, no session object yet. *)
Definition fresh_world : world :=
  mkWorld [] [alice] [] 1000 (fun _ => mkSessionIntegration None JNull) 0 []
          sample_uuids 0 [].

(** A world whose generator returns the same identifier again. *)
Definition repeating_world : world :=
  mkWorld [] [alice] [] 1000 (fun _ => mkSessionIntegration None JNull) 0 []
          (fun _ => sample_uuids 0) 0 [].

(** A world where the key of a session holds bytes that are not JSON. *)
Definition corrupt_world : world :=
  mkWorld [(_make_key (Some (sample_uuids 0)), (Garbage "{store:", Some 900%Z))]
          [alice] [] 1000 (fun _ => mkSessionIntegration None JNull) 0 []
          sample_uuids 1 [].

(** A request that presents the signed cookie of a session identifier. *)
Definition request_with_cookie (session_id : string) : Request :=
  mkRequest [] [("sid", Signed [("sid", Some session_id)])].

End Session.

(** * Properties of the authorization model *)

Section RbacFacts.
Import Rbac.

Lemma existsb_eq_name (name : string) (ps : list Permission) :
  existsb (fun p => eq_name (PyStr name) (perm_name p)) ps = true <->
  exists p, In p ps /\ perm_name p = name.
Proof.
  rewrite existsb_exists. split.
  - intros [p [Hin Heq]]. exists p. split; [exact Hin|].
    simpl in Heq. apply String.eqb_eq in Heq. congruence.
  - intros [p [Hin Heq]]. exists p. split; [exact Hin|].
    simpl. apply String.eqb_eq. congruence.
Qed.

Lemma truthy_list_existsb {A : Type} (f : A -> bool) (l : list A) :
  (if truthy_list l then existsb f l else false) = existsb f l.
Proof. destruct l; reflexivity. Qed.

Lemma Role_has_permission_name (r : Role) (name : string) :
  Role_has_permission r (PyStr name) = true <->
  exists p, In p (role_permissions r) /\ perm_name p = name.
Proof.
  unfold Role_has_permission.
  destruct (role_permissions r) as [|p ps] eqn:E.
  - simpl. split; [discriminate|]. intros [p [[] _]].
  - cbn [truthy_list negb]. apply existsb_eq_name.
Qed.

(** [has_permission] on a name is the union of the two paths, whatever
    the superuser flag says. *)
Lemma has_permission_name (u : User) (name : string) :
  has_permission u (PyStr name) = true <-> holds_directly u name \/ holds_via_role u name.
Proof.
  unfold has_permission, holds_directly, holds_via_role.
  rewrite truthy_list_existsb.
  destruct (roles u) as [|r rs] eqn:E.
  - cbn [truthy_list]. rewrite existsb_eq_name. split.
    + intros H. left. exact H.
    + intros [H | [r [p [[] _]]]]. exact H.
  - cbn [truthy_list]. rewrite orb_true_iff, existsb_eq_name, existsb_exists.
    split.
    + intros [H | [r' [Hin Hr]]]; [left; exact H|].
      right. apply Role_has_permission_name in Hr. destruct Hr as [p [Hp Hn]].
      exists r', p. auto.
    + intros [H | [r' [p [Hin [Hp Hn]]]]]; [left; exact H|].
      right. exists r'. split; [exact Hin|].
      apply Role_has_permission_name. exists p. auto.
Qed.

(** No [str] equals a [list], so nobody holds a list. *)
Lemma has_permission_list (u : User) (ps : list string) :
  has_permission u (PyList ps) = false.
Proof.
  unfold has_permission.
  assert (Hd : forall l, existsb (fun p => eq_name (PyList ps) (perm_name p)) l = false).
  { induction l; simpl; auto. }
  assert (Hr : forall l, existsb (fun role => Role_has_permission role (PyList ps)) l = false).
  { induction l as [|r l IH]; simpl; auto. rewrite IH.
    unfold Role_has_permission. rewrite Hd. destruct (truthy_list _); reflexivity. }
  rewrite Hd, Hr. destruct (truthy_list _), (truthy_list _); reflexivity.
Qed.

(** The list form never lets a subject without the superuser flag through:
    the call [user.can(permission)] that ends the closure is made on the
    list itself. *)
Lemma with_access_to_list_forbidden (u : User) (ps : list string) :
  is_superuser u = false ->
  exists p, with_access_to (PyList ps) u = Raise (RequiresPermission p).
Proof.
  intros Hs. unfold with_access_to.
  destruct (for_each_can u ps) as [[]|e] eqn:E.
  - exists (PyList ps). unfold can. rewrite Hs, has_permission_list. reflexivity.
  - revert E. induction ps as [|p ps IH]; simpl; [discriminate|].
    unfold can at 1. rewrite Hs.
    destruct (has_permission u (PyStr p)); simpl.
    + exact IH.
    + intros E. inversion E. eauto.
Qed.

(** C1 (the code departs from the claim). The claim: the list form of the
    permission requirement succeeds exactly when the subject holds every
    listed permission, so a subject without the superuser flag that holds
    them all passes. On [editor], who holds both listed permissions, every
    [user.can(p)] of the loop succeeds, and the closure then raises
    [RequiresPermission] for the list itself. *)
Theorem with_access_to_list_rejects_holder :
  is_superuser editor = false
  /\ (forall p, In p ["posts:read"; "posts:write"] -> has_permission editor (PyStr p) = true)
  /\ for_each_can editor ["posts:read"; "posts:write"] = Ok tt
  /\ with_access_to (PyList ["posts:read"; "posts:write"]) editor
     = Raise (RequiresPermission (PyList ["posts:read"; "posts:write"])).
Proof.
  repeat split.
  intros p [<- | [<- | []]]; reflexivity.
Qed.

(** The single-name form is the plain check. *)
Lemma with_access_to_name (u : User) (name : string) :
  with_access_to (PyStr name) u = can u (PyStr name).
Proof. unfold with_access_to. destruct (can u (PyStr name)) as [[]|]; reflexivity. Qed.

(** C2, as the specification states it, fails: [has_permission] does not
    read the superuser flag. *)
Lemma superuser_has_permission_counterexample :
  ~ (forall (u : User) (name : string),
        is_superuser u = true -> has_permission u (PyStr name) = true).
Proof.
  intros H. specialize (H root "posts:write" eq_refl). discriminate H.
Qed.

(** C2 (amended). For a subject whose superuser flag is set, the check
    [can] succeeds for every permission, also for one that is in none of
    the subject's direct permissions or roles, and so does the requirement
    [with_access_to]; [has_permission] itself answers from the direct
    permissions and the roles alone. *)
Theorem superuser_can_everything (u : User) (permission : pyarg) :
  is_superuser u = true ->
  can u permission = Ok tt
  /\ with_access_to permission u = Ok tt
  /\ (forall name, has_permission u (PyStr name) = true <->
                   holds_directly u name \/ holds_via_role u name).
Proof.
  intros Hs.
  assert (Hcan : forall q, can u q = Ok tt) by (intros q; unfold can; rewrite Hs; reflexivity).
  split; [apply Hcan|]. split; [|intros name; apply has_permission_name].
  unfold with_access_to.
  assert (Hloop : forall ps, for_each_can u ps = Ok tt).
  { induction ps as [|p ps IH]; simpl; [reflexivity|]. rewrite Hcan. exact IH. }
  destruct permission; rewrite ?Hloop, ?Hcan; reflexivity.
Qed.

Lemma superuser_can_everything_witness :
  is_superuser root = true /\ can root (PyStr "never:registered") = Ok tt.
Proof.
  split; [reflexivity|].
  apply (superuser_can_everything root (PyStr "never:registered")). reflexivity.
Defined.

(** C6. For a subject that is no superuser, [has_permission] is true
    exactly when the name is that of a direct permission or of a
    permission of one of the roles; the hard check [can] then succeeds in
    exactly those cases; and with no direct permission and no role the
    answer is [False], an answer and not an error. *)
Theorem has_permission_union (u : User) (name : string) :
  is_superuser u = false ->
  (has_permission u (PyStr name) = true <-> holds_directly u name \/ holds_via_role u name)
  /\ (can u (PyStr name) = Ok tt <-> holds_directly u name \/ holds_via_role u name)
  /\ (permissions u = [] -> roles u = [] -> has_permission u (PyStr name) = false).
Proof.
  intros Hs. split; [apply has_permission_name|]. split.
  - rewrite <- has_permission_name. unfold can. rewrite Hs.
    destruct (has_permission u (PyStr name)); simpl; split; congruence.
  - intros Hp Hr. unfold has_permission. rewrite Hp, Hr. reflexivity.
Qed.

Lemma has_permission_union_witness :
  is_superuser editor = false
  /\ (has_permission editor (PyStr "posts:write") = true <->
      holds_directly editor "posts:write" \/ holds_via_role editor "posts:write").
Proof.
  split; [reflexivity|].
  apply (has_permission_union editor "posts:write"). reflexivity.
Defined.

End RbacFacts.

(** * Properties of the signed tokens *)

Section SecurityFacts.
Import Security.

Lemma b64_char_not_dot (n : N) : b64_char n <> "."%char.
Proof.
  unfold b64_char.
  destruct (nth_in_or_default (N.to_nat (N.land n 63)) b64_alphabet "="%char) as [Hin | ->].
  - assert (Hall : forallb (fun c => negb (Ascii.eqb c "."%char)) b64_alphabet = true)
      by reflexivity.
    rewrite forallb_forall in Hall. specialize (Hall _ Hin).
    intros Heq. rewrite Heq in Hall. discriminate Hall.
  - discriminate.
Qed.

Lemma b64_char_eqb_dot (n : N) : Ascii.eqb (b64_char n) "."%char = false.
Proof. apply Ascii.eqb_neq, b64_char_not_dot. Qed.

(** Base64 text has no dot in it. *)
Lemma b64encode_no_dot (bs : list ascii) :
  contains_char "."%char (b64encode bs) = false.
Proof.
  assert (H : forall n bs', length bs' <= n ->
                            contains_char "."%char (b64encode bs') = false).
  { induction n as [|n IH]; intros [|a [|b [|c rest]]] Hlen; simpl in Hlen;
      try reflexivity; try lia;
      cbn [b64encode contains_char]; rewrite ?b64_char_eqb_dot; cbn [orb];
      try reflexivity.
    apply IH. lia. }
  apply (H (length bs)). lia.
Qed.

Lemma split_no_sep (sep : ascii) (s : string) :
  contains_char sep s = false -> split sep s = [s].
Proof.
  induction s as [|c s IH]; simpl; [reflexivity|].
  intros H. apply orb_false_iff in H. destruct H as [Hc Hs].
  rewrite Hc, (IH Hs). reflexivity.
Qed.

Lemma split_app_sep (sep : ascii) (v s : string) :
  contains_char sep v = false ->
  split sep (v ++ String sep s) = v :: split sep s.
Proof.
  induction v as [|c v IH]; simpl.
  - intros _. rewrite Ascii.eqb_refl. reflexivity.
  - intros H. apply orb_false_iff in H. destruct H as [Hc Hv].
    rewrite Hc, (IH Hv). reflexivity.
Qed.

(** A signed token splits into the value and its signature. *)
Lemma split_signed_token (hmac : string -> string -> list ascii) (value secret : string) :
  contains_char "."%char value = false ->
  split "."%char (create_signed_token hmac value secret)
  = [value; create_hmac hmac secret value].
Proof.
  intros Hv. unfold create_signed_token. cbn zeta.
  change (value ++ "." ++ create_hmac hmac secret value)
    with (value ++ String "."%char (create_hmac hmac secret value)).
  rewrite (split_app_sep _ _ _ Hv).
  rewrite split_no_sep; [reflexivity|]. apply b64encode_no_dot.
Qed.

(** C9. For every secret and every value without a dot, verifying the
    token made by [create_signed_token] returns [True] without raising,
    and the value the verification works on is the value that was signed;
    this holds whatever the keyed digest is. *)
Theorem signed_token_roundtrip
    (hmac : string -> string -> list ascii) (value secret : string) :
  contains_char "."%char value = false ->
  verify_signed_token hmac (create_signed_token hmac value secret) secret = Ok true
  /\ signed_value_of (create_signed_token hmac value secret) = Ok value.
Proof.
  intros Hv. unfold verify_signed_token, signed_value_of.
  rewrite (split_signed_token hmac value secret Hv).
  split; [|reflexivity]. rewrite String.eqb_refl. reflexivity.
Qed.

Lemma signed_token_roundtrip_witness :
  contains_char "."%char "Zk3v-Q_x" = false
  /\ verify_signed_token (fun key msg => list_ascii_of_string (key ++ msg))
       (create_signed_token (fun key msg => list_ascii_of_string (key ++ msg))
          "Zk3v-Q_x" "s3cret")
       "s3cret" = Ok true.
Proof.
  split; [reflexivity|].
  apply (signed_token_roundtrip
           (fun key msg => list_ascii_of_string (key ++ msg)) "Zk3v-Q_x" "s3cret").
  reflexivity.
Defined.

(** [base64.b64encode(b"Man")] and the padded forms. *)
Example b64encode_Man :
  b64encode (list_ascii_of_string "Man") = "TWFu"
  /\ b64encode (list_ascii_of_string "Ma") = "TWE="
  /\ b64encode (list_ascii_of_string "M") = "TQ==".
Proof. repeat split. Qed.

(** A value with a dot in it does not verify: the unpacking raises. *)
Example verify_dotted_value_raises :
  verify_signed_token (fun key msg => list_ascii_of_string (key ++ msg))
    (create_signed_token (fun key msg => list_ascii_of_string (key ++ msg)) "a.b" "k") "k"
  = Raise ValueError.
Proof. reflexivity. Qed.

End SecurityFacts.

(** * Properties of the session context and of the middleware *)

Section SessionFacts.
Import Rbac Session.
Local Open Scope py_scope.

(** Unfolds the plumbing of a computation down to the world it acts on. *)
Ltac run :=
  unfold bind, ret, raise, lift, deref, assign, alloc, uuid4,
         redis_exists, redis_get, redis_set, redis_delete,
         setattr_state, getattr_state in *;
  cbn [fst snd heap next_ref redis trace request_state uuid4_calls uuid4_values
       users user_sessions now with_heap with_redis with_request_state
       with_uuid4_calls with_user_sessions log store id] in *.

(** ** Dictionaries *)

Lemma dict_get_head {V : Type} (k : string) (v : V) (d : list (string * V)) :
  dict_get k ((k, v) :: d) = Some v.
Proof. simpl. rewrite String.eqb_refl. reflexivity. Qed.

Lemma dict_get_set_same {V : Type} (k : string) (v : V) (d : list (string * V)) :
  dict_get k (dict_set k v d) = Some v.
Proof.
  induction d as [|[k' v'] d IH]; simpl.
  - rewrite String.eqb_refl. reflexivity.
  - destruct (String.eqb k' k) eqn:E; simpl; rewrite E; [reflexivity|exact IH].
Qed.

Lemma dict_get_set_other {V : Type} (k k0 : string) (v : V) (d : list (string * V)) :
  k0 <> k -> dict_get k0 (dict_set k v d) = dict_get k0 d.
Proof.
  intros Hne. induction d as [|[k' v'] d IH]; simpl.
  - destruct (String.eqb k k0) eqn:E; [|reflexivity].
    apply String.eqb_eq in E. congruence.
  - destruct (String.eqb k' k) eqn:E; simpl.
    + apply String.eqb_eq in E. subst k'.
      destruct (String.eqb k k0) eqn:E0; [|reflexivity].
      apply String.eqb_eq in E0. congruence.
    + destruct (String.eqb k' k0); [reflexivity|exact IH].
Qed.

(** ** A context without a store *)

(** After [clear], the envelope is [None]. *)
Lemma clear_leaves_no_store (w : world) (self : ref) :
  fst (clear self w) = Ok tt
  /\ store (heap (snd (clear self w)) self) = JNull.
Proof.
  unfold clear, memory_clear. run. rewrite Nat.eqb_refl. split; reflexivity.
Qed.

(** After a [load] that finds no entry under the key, the envelope is
    [None]. *)
Lemma load_absent_leaves_no_store (w : world) (self : ref) :
  dict_get (_make_key (id (heap w self))) (redis w) = None ->
  fst (load self w) = Ok tt
  /\ store (heap (snd (load self w)) self) = JNull.
Proof.
  intros H. unfold load, get_store. run. rewrite H. cbn. rewrite Nat.eqb_refl.
  split; reflexivity.
Qed.

(** On a live bucket, deleting a key that is not there raises [KeyError]:
    the failure of a context without a store is a different one. *)
Lemma delitem_missing_key (w : world) (self : ref) (key : string)
    (bucket : list (string * json)) (rest : list (string * json)) :
  store (heap w self) = JObj (("store", JObj bucket) :: rest) ->
  dict_contains key bucket = false ->
  delitem self key w = (Raise (KeyError key), w).
Proof.
  intros Hs Hk. unfold delitem. run. rewrite Hs. cbn. rewrite Hk. reflexivity.
Qed.

(** C8. On a session context whose envelope is [None], every
    [session[key] = value] and every [del session[key]] raises
    [TypeError], the error of subscripting [None], for every key and
    value, and leaves the world as it was: no write is a silent no-op. *)
Theorem no_store_write_fails (w : world) (self : ref) (key : string) (value : json) :
  store (heap w self) = JNull ->
  setitem self key value w = (Raise TypeError, w)
  /\ delitem self key w = (Raise TypeError, w).
Proof.
  intros H. unfold setitem, delitem. run. rewrite H. split; reflexivity.
Qed.

Lemma no_store_write_fails_witness :
  store (heap (snd (clear 0 fresh_world)) 0) = JNull
  /\ fst (setitem 0 "user" (JStr "alice") (snd (clear 0 fresh_world))) = Raise TypeError
  /\ fst (delitem 0 "user" (snd (clear 0 fresh_world))) = Raise TypeError.
Proof.
  split; [reflexivity|].
  destruct (no_store_write_fails (snd (clear 0 fresh_world)) 0 "user" (JStr "alice")
              eq_refl) as [Hset Hdel].
  rewrite Hset, Hdel. split; reflexivity.
Defined.

(** ** Leaving a request *)

(** With an envelope that is [None], the exit path saves nothing, sets no
    session cookie and appends the deletion, whatever [cookie] holds. *)
Lemma dispatch_exit_no_store (mw : SessionMiddleware) (session : ref)
    (cookie' : option cookie) (response : Response) (w : world) :
  store (heap w session) = JNull ->
  dispatch_exit mw session cookie' response w
  = (Ok (delete_cookie (session_cookie_name mw) response), w).
Proof.
  intros H. unfold dispatch_exit. run. rewrite H. cbn. rewrite ?H. cbn.
  destruct cookie'; reflexivity.
Qed.

(** C5. When the handler leaves the session without a store, as
    [clear] does, [dispatch] returns the handler's response with one more
    header, the deletion of the session cookie, and the world is the one
    the handler left: nothing is saved and no signed cookie is set. This
    holds for every [cookie'] decided on entry, so also when a new cookie
    was due. *)
Theorem cleared_session_deletes_cookie
    (mw : SessionMiddleware) (request : Request) (call_next : M Response)
    (w w1 w2 : world) (session : ref) (cookie' : option cookie) (response : Response) :
  skip_session_header_check mw request = false ->
  dispatch_enter mw request w = (Ok (session, cookie'), w1) ->
  call_next w1 = (Ok response, w2) ->
  store (heap w2 session) = JNull ->
  dispatch mw request call_next w
  = (Ok (mkResponse (status_code response)
           (response_headers response ++ [("set-cookie", DeleteCookie (session_cookie_name mw))])
           (body response)),
     w2).
Proof.
  intros Hskip Henter Hnext Hstore. unfold dispatch. rewrite Hskip.
  unfold bind at 1. rewrite Henter. unfold bind at 1. rewrite Hnext.
  rewrite (dispatch_exit_no_store mw session cookie' response w2 Hstore).
  reflexivity.
Qed.

Lemma cleared_session_deletes_cookie_witness :
  fst (dispatch app_middleware (mkRequest [] [])
         (session <- getattr_state "session" ;;
          clear session ;;;
          ret (mkResponse 200 [] JNull))
         fresh_world)
  = Ok (mkResponse 200 [("set-cookie", DeleteCookie "sid")] JNull).
Proof.
  pose (h := (session <- getattr_state "session" ;;
              clear session ;;;
              ret (mkResponse 200 [] JNull)) : M Response).
  pose (e := dispatch_enter app_middleware (mkRequest [] []) fresh_world).
  change (fst (dispatch app_middleware (mkRequest [] []) h fresh_world)
          = Ok (mkResponse 200 [("set-cookie", DeleteCookie "sid")] JNull)).
  rewrite (cleared_session_deletes_cookie app_middleware (mkRequest [] []) h
             fresh_world (snd e) (snd (h (snd e))) 0
             (Some (create_session_cookie app_middleware (Some (sample_uuids 0))))
             (mkResponse 200 [] JNull) eq_refl eq_refl eq_refl eq_refl).
  reflexivity.
Defined.

(** ** Entering a request *)

(** What [create_session] does: one identifier drawn, one object
    allocated with the cause in its bucket, and the object attached to
    the request. Redis is not touched. *)
Lemma create_session_spec (mw : SessionMiddleware) (cause : string) (w : world) :
  exists w',
    create_session mw (Some cause) w = (Ok (next_ref w), w')
    /\ heap w' (next_ref w)
       = mkSessionIntegration (Some (uuid4_values w (uuid4_calls w)))
           (JObj [("store", JObj [("__cause__", JStr cause)])])
    /\ request_state w' = dict_set (session_object mw) (next_ref w) (request_state w)
    /\ trace w' = trace w
    /\ redis w' = redis w
    /\ uuid4_calls w' = S (uuid4_calls w).
Proof.
  eexists. unfold create_session, new_SessionIntegration, setitem. run.
  rewrite Nat.eqb_refl. cbn. run.
  split; [reflexivity|]. run. rewrite Nat.eqb_refl. repeat split.
Qed.

(** C4 (amended). A cookie that verifies, with no entry in the store
    under its identifier: [dispatch] raises nothing on entry; the session
    it attaches is a new object whose identifier is the value [uuid4]
    returns at that call, nothing read from the cookie; the bucket of that
    session holds the one entry ["__cause__"]; a signed cookie for the new
    identifier is due; and the only call to Redis is the [EXISTS] on the
    old key, so nothing is loaded under the old identifier. *)
Theorem stale_cookie_starts_new_session
    (mw : SessionMiddleware) (request : Request) (w : world)
    (payload : list (string * option string)) :
  dict_get (session_cookie_name mw) (request_cookies request) = Some (Signed payload) ->
  dict_contains (_make_key (decoded_get (session_cookie_name mw) payload)) (redis w) = false ->
  exists w',
    dispatch_enter mw request w
    = (Ok (next_ref w,
           Some (create_session_cookie mw (Some (uuid4_values w (uuid4_calls w))))),
       w')
    /\ heap w' (next_ref w)
       = mkSessionIntegration (Some (uuid4_values w (uuid4_calls w)))
           (JObj [("store", JObj [("__cause__", JStr "valid_cookie_but_no_store")])])
    /\ dict_get (session_object mw) (request_state w') = Some (next_ref w)
    /\ trace w'
       = (trace w
          ++ [RedisExists (_make_key (decoded_get (session_cookie_name mw) payload))])%list
    /\ redis w' = redis w.
Proof.
  intros Hcookie Habsent.
  destruct (create_session_spec mw "valid_cookie_but_no_store"
              (log (RedisExists (_make_key (decoded_get (session_cookie_name mw) payload))) w))
    as (w' & Hc & Hheap & Hstate & Htrace & Hredis & _).
  exists w'. unfold dispatch_enter. rewrite Hcookie. cbn [serializer_decode].
  unfold memory_has. run. rewrite Habsent. cbn [negb]. rewrite Hc. run.
  rewrite Hheap. cbn [id]. repeat split; try assumption.
  rewrite Hstate. apply dict_get_set_same.
Qed.

Lemma stale_cookie_starts_new_session_witness :
  exists w',
    dispatch_enter app_middleware (request_with_cookie (sample_uuids 1)) fresh_world
    = (Ok (0, Some (create_session_cookie app_middleware (Some (sample_uuids 0)))), w')
    /\ trace w' = [RedisExists (_make_key (Some (sample_uuids 1)))].
Proof.
  destruct (stale_cookie_starts_new_session app_middleware
              (request_with_cookie (sample_uuids 1)) fresh_world
              [("sid", Some (sample_uuids 1))] eq_refl eq_refl)
    as (w' & Henter & _ & _ & Htrace & _).
  exists w'. split; [exact Henter | exact Htrace].
Defined.

(** C4, as the specification states it, fails twice on one request: the
    generator may return the identifier the cookie carries, and the
    session attached is not empty, it holds ["__cause__"]. *)
Lemma stale_cookie_counterexample :
  exists session cookie' w',
    dispatch_enter app_middleware (request_with_cookie (sample_uuids 0)) repeating_world
    = (Ok (session, Some cookie'), w')
    /\ id (heap w' session) = Some (sample_uuids 0)
    /\ cookie_value cookie' = Signed [("sid", Some (sample_uuids 0))]
    /\ store (heap w' session) <> JObj [("store", JObj [])]
    /\ fst (contains session "__cause__" w') = Ok true
    /\ fst (getitem session "__cause__" w') = Ok (JStr "valid_cookie_but_no_store").
Proof.
  exists 0, (create_session_cookie app_middleware (Some (sample_uuids 0))),
    (snd (dispatch_enter app_middleware (request_with_cookie (sample_uuids 0))
            repeating_world)).
  split; [reflexivity|]. repeat split. discriminate.
Qed.

(** The branch of [dispatch] for a cookie that verifies and has an entry:
    either it raises, or it attaches a loaded session whose bucket has
    received ["__cause__"]; it draws no identifier. *)
Lemma load_branch_spec (mw : SessionMiddleware) (session_id : option string) (w : world) :
  let branch : M (ref * option cookie) :=
    session <- new_SessionIntegration session_id ;;
    load session ;;;
    setitem session "__cause__" (JStr "success") ;;;
    setattr_state (session_object mw) session ;;;
    ret (session, None) in
  uuid4_calls (snd (branch w)) = uuid4_calls w
  /\ ((exists e, fst (branch w) = Raise e)
      \/ (exists fields bucket,
            fst (branch w) = Ok (next_ref w, None)
            /\ store (heap (snd (branch w)) (next_ref w))
               = JObj (dict_set "store"
                         (JObj (dict_set "__cause__" (JStr "success") bucket)) fields))).
Proof.
  cbv zeta. unfold new_SessionIntegration, load, get_store, setitem. run.
  rewrite !Nat.eqb_refl. run.
  destruct (dict_get (_make_key session_id) (redis w)) as [[[v|raw|raw] ttl]|];
    cbn; rewrite ?Nat.eqb_refl; cbn.
  - destruct v as [|b|n|s|items|fields]; cbn; try (split; [reflexivity|left; eexists; reflexivity]).
    destruct (dict_get "store" fields) as [[|b|n|s|items|bucket]|]; cbn;
      try (split; [reflexivity|left; eexists; reflexivity]).
    rewrite ?Nat.eqb_refl. cbn.
    split; [reflexivity|]. right. exists fields, bucket. split; reflexivity.
  - split; [reflexivity|left; eexists; reflexivity].
  - split; [reflexivity|left; eexists; reflexivity].
  - split; [reflexivity|left; eexists; reflexivity].
Qed.

(** [dispatch] on entry, for a cookie that verifies: one [EXISTS], then
    one of the two branches. *)
Lemma dispatch_enter_signed (mw : SessionMiddleware) (request : Request) (w : world)
    (payload : list (string * option string)) :
  dict_get (session_cookie_name mw) (request_cookies request) = Some (Signed payload) ->
  dispatch_enter mw request w
  = let session_id := decoded_get (session_cookie_name mw) payload in
    let w0 := log (RedisExists (_make_key session_id)) w in
    if dict_contains (_make_key session_id) (redis w)
    then (session <- new_SessionIntegration session_id ;;
          load session ;;;
          setitem session "__cause__" (JStr "success") ;;;
          setattr_state (session_object mw) session ;;;
          ret (session, None)) w0
    else (session <- create_session mw (Some "valid_cookie_but_no_store") ;;
          s <- deref session ;;
          ret (session, Some (create_session_cookie mw (id s)))) w0.
Proof.
  intros H. unfold dispatch_enter. rewrite H. cbn [serializer_decode].
  unfold memory_has. unfold bind at 1 2. unfold redis_exists, ret at 1.
  destruct (dict_contains _ (redis w)); reflexivity.
Qed.

(** A cookie is due exactly for the sessions made by [create_session]:
    the bucket then holds the cause and nothing else. *)
Lemma create_branch_spec (mw : SessionMiddleware) (cause : string) (w : world) :
  exists w',
    (session <- create_session mw (Some cause) ;;
     s <- deref session ;;
     ret (session, Some (create_session_cookie mw (id s)))) w
    = (Ok (next_ref w,
           Some (create_session_cookie mw (Some (uuid4_values w (uuid4_calls w))))), w')
    /\ store (heap w' (next_ref w)) = JObj [("store", JObj [("__cause__", JStr cause)])]
    /\ uuid4_calls w' = S (uuid4_calls w).
Proof.
  destruct (create_session_spec mw cause w) as (w' & Hc & Hheap & _ & _ & _ & Hu).
  exists w'. unfold bind at 1. rewrite Hc. run. rewrite Hheap. cbn [id store].
  repeat split. exact Hu.
Qed.

(** The shape of the envelope of every session [dispatch] attaches. *)
Lemma dispatch_enter_envelope (mw : SessionMiddleware) (request : Request)
    (w w' : world) (session : ref) (cookie' : option cookie) :
  dispatch_enter mw request w = (Ok (session, cookie'), w') ->
  (cookie' <> None /\
   exists cause, store (heap w' session) = JObj [("store", JObj [("__cause__", JStr cause)])])
  \/ (cookie' = None /\
      exists fields bucket,
        store (heap w' session)
        = JObj (dict_set "store" (JObj (dict_set "__cause__" (JStr "success") bucket)) fields)).
Proof.
  intros H.
  assert (Hnew : forall cause w0,
             (session <- create_session mw (Some cause) ;;
              s <- deref session ;;
              ret (session, Some (create_session_cookie mw (id s)))) w0
             = (Ok (session, cookie'), w') ->
             cookie' <> None /\
             exists cause', store (heap w' session)
                            = JObj [("store", JObj [("__cause__", JStr cause')])]).
  { intros cause w0 H0. destruct (create_branch_spec mw cause w0) as (w1 & He & Hst & _).
    rewrite He in H0. inversion H0; subst. split; [discriminate|]. eauto. }
  destruct (dict_get (session_cookie_name mw) (request_cookies request))
    as [[payload|raw err]|] eqn:Hc.
  - rewrite (dispatch_enter_signed mw request w payload Hc) in H. cbv zeta in H.
    destruct (dict_contains _ (redis w)).
    + right.
      pose proof (load_branch_spec mw (decoded_get (session_cookie_name mw) payload)
                    (log (RedisExists
                            (_make_key (decoded_get (session_cookie_name mw) payload))) w))
        as L.
      cbv zeta in L. rewrite H in L. cbn [fst snd] in L.
      destruct L as [_ [[e He] | (fields & bucket & Hr & Hst)]]; [discriminate He|].
      inversion Hr; subst. split; [reflexivity|]. exists fields, bucket. exact Hst.
    + left. eapply Hnew. exact H.
  - left. unfold dispatch_enter in H. rewrite Hc in H. cbn [serializer_decode] in H.
    eapply Hnew. exact H.
  - left. unfold dispatch_enter in H. rewrite Hc in H.
    eapply Hnew. exact H.
Qed.

(** C7, as the specification states it, fails: on a first request,
    without a cookie, the session the middleware attaches already answers
    [True] to ["__cause__" in session], before any handler has run. *)
Lemma bookkeeping_key_counterexample :
  exists session cookie' w',
    dispatch_enter app_middleware (mkRequest [] []) fresh_world = (Ok (session, cookie'), w')
    /\ contains session "__cause__" w' = (Ok true, w')
    /\ getitem session "__cause__" w' = (Ok (JStr "new"), w').
Proof.
  exists 0, (Some (create_session_cookie app_middleware (Some (sample_uuids 0)))),
    (snd (dispatch_enter app_middleware (mkRequest [] []) fresh_world)).
  repeat split.
Qed.

(** C7 (amended). The middleware keeps its one bookkeeping key,
    ["__cause__"], inside the bucket the application sees: for every
    session attached to a request, before any handler write,
    ["__cause__" in session] is [True]; and for a session the middleware
    has just created (a cookie is due), the contains operation is [True]
    for ["__cause__"] and [False] for every other key. *)
Theorem attached_session_holds_cause
    (mw : SessionMiddleware) (request : Request) (w w' : world)
    (session : ref) (cookie' : option cookie) :
  dispatch_enter mw request w = (Ok (session, cookie'), w') ->
  contains session "__cause__" w' = (Ok true, w')
  /\ (cookie' <> None ->
      forall key, contains session key w' = (Ok (String.eqb "__cause__" key), w')).
Proof.
  intros H.
  destruct (dispatch_enter_envelope mw request w w' session cookie' H)
    as [[Hdue [cause Hst]] | [Hnone (fields & bucket & Hst)]].
  - assert (Hall : forall key,
               contains session key w' = (Ok (String.eqb "__cause__" key), w')).
    { intros key. unfold contains. run. rewrite Hst.
      unfold py_getitem. rewrite dict_get_head.
      unfold py_contains, dict_contains. cbn [dict_get].
      destruct (String.eqb "__cause__" key); reflexivity. }
    split; [|intros _; exact Hall].
    rewrite (Hall "__cause__"). reflexivity.
  - split; [|intros Hdue; contradiction].
    unfold contains. run. rewrite Hst. cbn [py_getitem].
    rewrite dict_get_set_same. cbn [py_contains]. unfold dict_contains.
    rewrite dict_get_set_same. reflexivity.
Qed.

Lemma attached_session_holds_cause_witness :
  contains 0 "__cause__"
    (snd (dispatch_enter app_middleware (mkRequest [] []) fresh_world))
  = (Ok true, snd (dispatch_enter app_middleware (mkRequest [] []) fresh_world)).
Proof.
  destruct (attached_session_holds_cause app_middleware (mkRequest [] []) fresh_world
              (snd (dispatch_enter app_middleware (mkRequest [] []) fresh_world)) 0
              (Some (create_session_cookie app_middleware (Some (sample_uuids 0))))
              eq_refl) as [Hcause _].
  exact Hcause.
Defined.

(** C10. A cookie that verifies, an [EXISTS] that succeeds, and under
    the key a text that is not JSON: [get_store] returns [None], and
    [dispatch] raises [TypeError] at [session["__cause__"] = "success"];
    the handler is not called, no identifier is drawn and no session is
    attached, so there is no fall back to a new session. For a cookie
    that verifies, a new session is made exactly when the [EXISTS]
    fails, in every world. (Bytes that are no UTF-8 text do not reach
    [json.loads]: see [undecodable_entry_raises_decode_error].) *)
Theorem corrupt_entry_raises_type_error
    (mw : SessionMiddleware) (request : Request) (call_next : M Response) (w : world)
    (payload : list (string * option string)) (raw : string) (ttl : option Z) :
  skip_session_header_check mw request = false ->
  dict_get (session_cookie_name mw) (request_cookies request) = Some (Signed payload) ->
  dict_get (_make_key (decoded_get (session_cookie_name mw) payload)) (redis w)
  = Some (Garbage raw, ttl) ->
  fst (get_store (decoded_get (session_cookie_name mw) payload) w) = Ok JNull
  /\ fst (dispatch mw request call_next w) = Raise TypeError
  /\ trace (snd (dispatch mw request call_next w))
     = (trace w
        ++ [RedisExists (_make_key (decoded_get (session_cookie_name mw) payload));
            RedisGet (_make_key (decoded_get (session_cookie_name mw) payload))])%list
  /\ uuid4_calls (snd (dispatch mw request call_next w)) = uuid4_calls w
  /\ request_state (snd (dispatch mw request call_next w)) = request_state w
  /\ (forall w0,
         uuid4_calls (snd (dispatch_enter mw request w0)) = S (uuid4_calls w0)
         <-> dict_contains (_make_key (decoded_get (session_cookie_name mw) payload))
               (redis w0) = false).
Proof.
  intros Hskip Hcookie Hentry.
  split.
  { unfold get_store. run. rewrite Hentry. reflexivity. }
  assert (Henter : exists w1,
             dispatch_enter mw request w = (Raise TypeError, w1)
             /\ trace w1
                = (trace w
                   ++ [RedisExists (_make_key (decoded_get (session_cookie_name mw) payload));
                       RedisGet (_make_key (decoded_get (session_cookie_name mw) payload))])%list
             /\ uuid4_calls w1 = uuid4_calls w
             /\ request_state w1 = request_state w).
  { rewrite (dispatch_enter_signed mw request w payload Hcookie). cbv zeta.
    unfold dict_contains. rewrite Hentry.
    unfold new_SessionIntegration, load, get_store, setitem. run.
    rewrite !Nat.eqb_refl. run. rewrite Hentry. cbn. rewrite !Nat.eqb_refl. cbn.
    eexists. split; [reflexivity|]. cbn. rewrite <- app_assoc. repeat split. }
  destruct Henter as (w1 & He & Ht & Hu & Hs).
  assert (Hd : dispatch mw request call_next w = (Raise TypeError, w1)).
  { unfold dispatch. rewrite Hskip. unfold bind at 1. rewrite He. reflexivity. }
  rewrite Hd. cbn [fst snd]. repeat split; try assumption.
  - intros Hdrawn.
    rewrite (dispatch_enter_signed mw request w0 payload Hcookie) in Hdrawn.
    cbv zeta in Hdrawn.
    destruct (dict_contains _ (redis w0)); [|reflexivity].
    pose proof (load_branch_spec mw (decoded_get (session_cookie_name mw) payload)
                  (log (RedisExists
                          (_make_key (decoded_get (session_cookie_name mw) payload))) w0))
      as [L _].
    cbv zeta in L. rewrite L in Hdrawn. cbn in Hdrawn. lia.
  - intros Habsent.
    rewrite (dispatch_enter_signed mw request w0 payload Hcookie). cbv zeta.
    rewrite Habsent.
    destruct (create_branch_spec mw "valid_cookie_but_no_store"
                (log (RedisExists
                        (_make_key (decoded_get (session_cookie_name mw) payload))) w0))
      as (w2 & He2 & _ & Hu2).
    rewrite He2. cbn [snd]. exact Hu2.
Qed.

Lemma corrupt_entry_raises_type_error_witness :
  fst (dispatch app_middleware (request_with_cookie (sample_uuids 0))
         (ret (mkResponse 200 [] JNull)) corrupt_world)
  = Raise TypeError.
Proof.
  destruct (corrupt_entry_raises_type_error app_middleware
              (request_with_cookie (sample_uuids 0)) (ret (mkResponse 200 [] JNull))
              corrupt_world [("sid", Some (sample_uuids 0))] "{store:" (Some 900%Z)
              eq_refl eq_refl eq_refl) as (_ & Hraise & _).
  exact Hraise.
Defined.

(** ** The cached user *)

(** [get_session_user] looks for ["user"] in the envelope, whose only key
    is ["store"], so whatever the bucket holds it goes on to the
    database. *)
Lemma get_session_user_always_queries
    (model_validate : json -> result User) (user_payload : User -> json)
    (w : world) (session : ref) (bucket : list (string * json)) :
  dict_get "session" (request_state w) = Some session ->
  store (heap w session) = JObj [("store", JObj bucket)] ->
  trace (snd (get_session_user model_validate user_payload w))
  = (trace w ++ [DbSelectSessionByToken (id (heap w session))])%list.
Proof.
  intros Hstate Hstore.
  unfold get_session_user, get_by_session_token, one_or_none, setitem. run.
  rewrite Hstate. run. rewrite Hstore. cbn [py_get dict_get String.eqb Ascii.eqb Bool.eqb andb].
  cbn [truthy]. cbv iota. run.
  destruct (filter _ (user_sessions w)) as [|row [|row' rows]]; run; try reflexivity.
  cbn [option_map]. run. rewrite Hstore. reflexivity.
Qed.

(** C3 (the code departs from the claim). The claim: after a login has
    stored the user under ["user"] in the session, a request with the
    same cookie gets the user from the session and makes no database
    lookup. Here a first request logs [alice] in: the bucket and the
    Redis entry then hold her payload under ["user"]. The next request
    presents the cookie that was set, and [get_session_user] still
    selects the session row from the database, for every
    [model_validate], which is never called. *)
Theorem cached_user_is_read_from_database
    (model_validate : json -> result User) (user_payload user_public : User -> json) :
  let verify_password := fun plain _ : string => String.eqb plain "correct horse" in
  let key := _make_key (Some (sample_uuids 0)) in
  let first :=
    serve app_middleware (mkRequest [] [])
      (endpoint user_public
         (login user_payload verify_password 604800 "alice@example.org" "correct horse"))
      fresh_world in
  let second :=
    serve app_middleware (request_with_cookie (sample_uuids 0))
      (endpoint user_public (get_current_user model_validate user_payload))
      (snd first) in
  fst first
  = Ok (mkResponse 200
          [("set-cookie",
            SetSessionCookie (create_session_cookie app_middleware (Some (sample_uuids 0))))]
          (user_public alice))
  /\ fst (getitem 0 "user" (snd first)) = Ok (user_payload alice)
  /\ dict_get key (redis (snd first))
     = Some (JsonText
               (JObj [("store", JObj [("__cause__", JStr "new");
                                       ("user", user_payload alice)])]),
             Some 900%Z)
  /\ fst second = Ok (mkResponse 200 [] (user_public alice))
  /\ trace (snd second)
     = (trace (snd first)
        ++ [RedisExists key; RedisGet key;
            DbSelectSessionByToken (Some (sample_uuids 0));
            RedisSet key
              (JsonText
                 (JObj [("store", JObj [("__cause__", JStr "success");
                                         ("user", user_payload alice)])]))
              (Some 900%Z)])%list.
Proof.
  cbv zeta. repeat split; vm_compute; reflexivity.
Qed.

End SessionFacts.

(** * More on the authorization model *)

Section RbacMore.
Import Rbac.

(** X1. [has_role] is true exactly when one of the subject's roles has
    that name; without roles it is [False]. *)
Theorem has_role_iff (u : User) (name : string) :
  has_role u name = true <-> exists r, In r (roles u) /\ role_name r = name.
Proof.
  unfold has_role. destruct (roles u) as [|r rs] eqn:E.
  - simpl. split; [discriminate|]. intros [r [[] _]].
  - cbn [truthy_list negb]. rewrite existsb_exists. split.
    + intros [r' [Hin Heq]]. exists r'. split; [exact Hin|]. now apply String.eqb_eq.
    + intros [r' [Hin Heq]]. exists r'. split; [exact Hin|]. now apply String.eqb_eq.
Qed.

(** X2. Granting never takes away: when every direct permission of [u]
    is one of [u'] and every role of [u] has a counterpart among the
    roles of [u'] that holds at least the same permissions, a name [u]
    holds is held by [u']. *)
Theorem has_permission_monotone (u u' : User) (name : string) :
  incl (permissions u) (permissions u') ->
  (forall r, In r (roles u) ->
             exists r', In r' (roles u') /\ incl (role_permissions r) (role_permissions r')) ->
  has_permission u (PyStr name) = true ->
  has_permission u' (PyStr name) = true.
Proof.
  intros Hp Hr H. apply has_permission_name. apply has_permission_name in H.
  destruct H as [[p [Hin Hn]] | [r [p [Hin [Hpin Hn]]]]].
  - left. exists p. split; [apply Hp, Hin | exact Hn].
  - right. destruct (Hr r Hin) as [r' [Hin' Hincl]].
    exists r', p. repeat split; [exact Hin' | apply Hincl, Hpin | exact Hn].
Qed.

Lemma has_permission_monotone_witness :
  has_permission
    (mkUser 7 "editor@example.org" "$2b$12$hash" true false None
       (mkPermission 3 "posts:delete" "Delete posts" None :: permissions editor) [])
    (PyStr "posts:write") = true.
Proof.
  apply (has_permission_monotone editor
           (mkUser 7 "editor@example.org" "$2b$12$hash" true false None
              (mkPermission 3 "posts:delete" "Delete posts" None :: permissions editor) [])
           "posts:write").
  - intros p Hin. right. exact Hin.
  - intros r [].
  - reflexivity.
Defined.

(** X3. Asked with an [int], [Role.has_permission] compares identifiers:
    it is true exactly when a permission of the role has that
    identifier, whatever the names are. *)
Theorem Role_has_permission_by_id (r : Role) (n : Z) :
  Role_has_permission r (PyInt n) = true <->
  exists p, In p (role_permissions r) /\ perm_id p = n.
Proof.
  unfold Role_has_permission. destruct (role_permissions r) as [|p ps] eqn:E.
  - simpl. split; [discriminate|]. intros [p [[] _]].
  - cbn [truthy_list negb]. rewrite existsb_exists. split.
    + intros [q [Hin Heq]]. exists q. split; [exact Hin|].
      apply Z.eqb_eq in Heq. congruence.
    + intros [q [Hin Heq]]. exists q. split; [exact Hin|].
      apply Z.eqb_eq. congruence.
Qed.

(** The loop stops at the first name the subject lacks. *)
Lemma for_each_can_first_missing (u : User) (held : list string) (q : string)
    (rest : list string) :
  is_superuser u = false ->
  (forall p, In p held -> has_permission u (PyStr p) = true) ->
  has_permission u (PyStr q) = false ->
  for_each_can u (held ++ q :: rest) = Raise (RequiresPermission (PyStr q)).
Proof.
  intros Hs Hheld Hq. induction held as [|p held IH]; simpl.
  - unfold can. rewrite Hs, Hq. reflexivity.
  - unfold can at 1. rewrite Hs, (Hheld p (or_introl eq_refl)). simpl.
    apply IH. intros p' Hin. apply Hheld. right. exact Hin.
Qed.

(** X4. The Forbidden error names what is missing: for a subject that is
    no superuser, the list form raises [RequiresPermission] for the first
    listed name the subject lacks, and the single-name form raises it for
    that name. *)
Theorem with_access_to_names_first_missing (u : User) (held : list string) (q : string)
    (rest : list string) :
  is_superuser u = false ->
  (forall p, In p held -> has_permission u (PyStr p) = true) ->
  has_permission u (PyStr q) = false ->
  with_access_to (PyList (held ++ q :: rest)) u = Raise (RequiresPermission (PyStr q))
  /\ with_access_to (PyStr q) u = Raise (RequiresPermission (PyStr q)).
Proof.
  intros Hs Hheld Hq. split.
  - unfold with_access_to. rewrite (for_each_can_first_missing u held q rest Hs Hheld Hq).
    reflexivity.
  - rewrite with_access_to_name. unfold can. rewrite Hs, Hq. reflexivity.
Qed.

Lemma with_access_to_names_first_missing_witness :
  with_access_to (PyList ["posts:read"; "posts:delete"; "posts:write"]) editor
  = Raise (RequiresPermission (PyStr "posts:delete")).
Proof.
  destruct (with_access_to_names_first_missing editor ["posts:read"] "posts:delete"
              ["posts:write"] eq_refl) as [H _].
  - intros p [<- | []]. reflexivity.
  - reflexivity.
  - exact H.
Defined.

End RbacMore.

(** * More on tokens and passwords *)

Section SecurityMore.
Import Security.

(** [split] cuts once per separator. *)
Lemma split_length (sep : ascii) (s : string) :
  length (split sep s) = S (count_char sep s).
Proof.
  induction s as [|c s IH]; simpl; [reflexivity|].
  destruct (Ascii.eqb c sep); simpl.
  - rewrite IH. reflexivity.
  - destruct (split sep s) as [|part parts]; simpl in *; [discriminate IH | exact IH].
Qed.

(** X5. A token is checked against the keyed digest of its own first
    part: for a value and a signature without dots,
    [verify_signed_token] returns, without raising, whether the signature
    is [create_hmac(secret, value)]; any other signature gives [False]. *)
Theorem verify_signed_token_checks_signature
    (hmac : string -> string -> list ascii) (value sig secret : string) :
  contains_char "."%char value = false ->
  contains_char "."%char sig = false ->
  verify_signed_token hmac (value ++ "." ++ sig) secret
  = Ok (String.eqb sig (create_hmac hmac secret value)).
Proof.
  intros Hv Hs. unfold verify_signed_token.
  change (value ++ "." ++ sig) with (value ++ String "."%char sig).
  rewrite (split_app_sep _ _ _ Hv), (split_no_sep _ _ Hs). reflexivity.
Qed.

Lemma verify_signed_token_checks_signature_witness :
  verify_signed_token (fun key msg => list_ascii_of_string (key ++ msg))
    ("Zk3v-Q_x" ++ "." ++ "Zm9yZ2Vk") "s3cret" = Ok false.
Proof.
  rewrite (verify_signed_token_checks_signature
             (fun key msg => list_ascii_of_string (key ++ msg))
             "Zk3v-Q_x" "Zm9yZ2Vk" "s3cret" eq_refl eq_refl).
  reflexivity.
Defined.

(** Unpacking needs exactly two parts. *)
Lemma unpack_fails_without_one_dot
    (hmac : string -> string -> list ascii) (token secret : string) :
  count_char "."%char token <> 1 ->
  verify_signed_token hmac token secret = Raise ValueError.
Proof.
  intros Hn. unfold verify_signed_token.
  pose proof (split_length "."%char token) as Hlen.
  destruct (split "."%char token) as [|a [|b [|c rest]]]; simpl in Hlen;
    try reflexivity.
  exfalso. apply Hn. lia.
Qed.

(** X6. A token that does not hold exactly one dot cannot be unpacked:
    [verify_signed_token] raises [ValueError] for every secret, and a
    token with exactly one dot never raises. *)
Theorem verify_signed_token_needs_one_dot
    (hmac : string -> string -> list ascii) (token secret : string) :
  (count_char "."%char token <> 1 ->
   verify_signed_token hmac token secret = Raise ValueError)
  /\ (count_char "."%char token = 1 ->
      exists b, verify_signed_token hmac token secret = Ok b).
Proof.
  split; [apply unpack_fails_without_one_dot|].
  intros H1. unfold verify_signed_token.
  pose proof (split_length "."%char token) as Hlen. rewrite H1 in Hlen.
  destruct (split "."%char token) as [|a [|b [|c rest]]]; simpl in Hlen;
    try discriminate Hlen.
  eexists. reflexivity.
Qed.

Lemma verify_signed_token_needs_one_dot_witness :
  verify_signed_token (fun key msg => list_ascii_of_string (key ++ msg))
    "a.b.c" "s3cret" = Raise ValueError.
Proof.
  apply (proj1 (verify_signed_token_needs_one_dot
                  (fun key msg => list_ascii_of_string (key ++ msg)) "a.b.c" "s3cret")).
  discriminate.
Defined.

Lemma count_char_app (sep : ascii) (a b : string) :
  count_char sep (a ++ b) = count_char sep a + count_char sep b.
Proof. induction a as [|c a IH]; simpl; [reflexivity|]. rewrite IH. lia. Qed.

Lemma contains_char_count (sep : ascii) (s : string) :
  contains_char sep s = true -> 1 <= count_char sep s.
Proof.
  induction s as [|c s IH]; simpl; [discriminate|].
  destruct (Ascii.eqb c sep); simpl; [lia | exact IH].
Qed.

(** X7. Signing does not escape dots: a value that contains a dot gives
    a signed token that raises [ValueError] when verified, with the very
    secret that signed it. *)
Theorem signed_dotted_value_never_verifies
    (hmac : string -> string -> list ascii) (value secret : string) :
  contains_char "."%char value = true ->
  verify_signed_token hmac (create_signed_token hmac value secret) secret
  = Raise ValueError.
Proof.
  intros Hv. apply unpack_fails_without_one_dot.
  unfold create_signed_token. cbn zeta.
  rewrite count_char_app. apply contains_char_count in Hv.
  change ("." ++ create_hmac hmac secret value)
    with (String "."%char (create_hmac hmac secret value)).
  cbn [count_char]. rewrite Ascii.eqb_refl. lia.
Qed.

Lemma signed_dotted_value_never_verifies_witness :
  verify_signed_token (fun key msg => list_ascii_of_string (key ++ msg))
    (create_signed_token (fun key msg => list_ascii_of_string (key ++ msg))
       "user.42" "s3cret")
    "s3cret" = Raise ValueError.
Proof.
  apply (signed_dotted_value_never_verifies
           (fun key msg => list_ascii_of_string (key ++ msg)) "user.42" "s3cret").
  reflexivity.
Defined.

(** X8. A generated token verifies: when the random text has no dot in
    it, as the URL-safe alphabet guarantees, the token made by
    [generate_and_sign_token] passes [verify_signed_token] with the same
    secret, for every length. *)
Theorem generated_token_verifies
    (hmac : string -> string -> list ascii) (token_urlsafe : nat -> string)
    (token_length : nat) (secret_key : string) :
  contains_char "."%char (token_urlsafe token_length) = false ->
  verify_signed_token hmac
    (generate_and_sign_token hmac token_urlsafe token_length secret_key) secret_key
  = Ok true.
Proof.
  intros H. unfold generate_and_sign_token, generate_token, verify_signed_token.
  cbn [append].
  rewrite (split_signed_token hmac (token_urlsafe token_length) secret_key H).
  rewrite String.eqb_refl. reflexivity.
Qed.

Lemma generated_token_verifies_witness :
  verify_signed_token (fun key msg => list_ascii_of_string (key ++ msg))
    (generate_and_sign_token (fun key msg => list_ascii_of_string (key ++ msg))
       (fun _ => "pX2_9a-Q") 6 "s3cret") "s3cret"
  = Ok true.
Proof.
  apply (generated_token_verifies (fun key msg => list_ascii_of_string (key ++ msg))
           (fun _ => "pX2_9a-Q") 6 "s3cret").
  reflexivity.
Defined.

(** X9. Hashing and verifying treat a password alike: when bcrypt accepts
    what it hashed, [verify_password] accepts the hash
    [get_password_hash] made of the same password, whatever its length;
    and with SHA-256 digests of 64 hexadecimal characters, what is handed
    to bcrypt (seen here by hashing with the identity) is never longer
    than 72 bytes. *)
Theorem password_hash_verifies
    (sha256_hexdigest : string -> string)
    (bcrypt_hashpw : string -> string -> string)
    (bcrypt_checkpw : string -> string -> bool)
    (salt password : string) :
  (forall data, String.length (sha256_hexdigest data) = 64) ->
  (forall pw s, bcrypt_checkpw pw (bcrypt_hashpw pw s) = true) ->
  verify_password sha256_hexdigest bcrypt_checkpw password
    (get_password_hash sha256_hexdigest bcrypt_hashpw salt password) = true
  /\ String.length (get_password_hash sha256_hexdigest (fun pw _ => pw) salt password) <= 72.
Proof.
  intros Hsha Hbcrypt. unfold verify_password, get_password_hash. cbn zeta.
  split; [apply Hbcrypt|].
  destruct (Nat.ltb 72 (String.length password)) eqn:E.
  - rewrite Hsha. lia.
  - apply Nat.ltb_ge in E. exact E.
Qed.

Lemma password_hash_verifies_witness :
  verify_password
    (fun _ => "9f86d081884c7d659a2feaa0c55ad015a3bf4f1b2b0b822cd15d6c15b0f00a08")
    String.eqb "correct horse battery staple"
    (get_password_hash
       (fun _ => "9f86d081884c7d659a2feaa0c55ad015a3bf4f1b2b0b822cd15d6c15b0f00a08")
       (fun pw _ => pw) "$2b$12$salt" "correct horse battery staple")
  = true.
Proof.
  destruct (password_hash_verifies
              (fun _ => "9f86d081884c7d659a2feaa0c55ad015a3bf4f1b2b0b822cd15d6c15b0f00a08")
              (fun pw _ => pw) String.eqb "$2b$12$salt" "correct horse battery staple")
    as [H _].
  - intros data. reflexivity.
  - intros pw s. apply String.eqb_refl.
  - exact H.
Defined.

End SecurityMore.

(** * Properties of the generators and of the settings *)

Section GeneratorsFacts.
Import Generators.

(** X10. [generate_id] draws a number of exactly the asked number of
    digits: for a length of at least 1 and a [randbelow] that stays below
    its bound, the number lies from [10 ** (length - 1)] up to, but not
    including, [10 ** length - 1], the number written with nines only;
    for a length below 1 the call raises [ValueError]. *)
Theorem generate_id_number_bounds (randbelow : Z -> Z) (length : Z) :
  (forall bound, 0 < bound -> 0 <= randbelow bound < bound)%Z ->
  ((1 <= length)%Z ->
   exists n, generate_id_number randbelow length = Ok n
             /\ (10 ^ (length - 1) <= n < 10 ^ length - 1)%Z)
  /\ ((length < 1)%Z -> generate_id_number randbelow length = Raise ValueError).
Proof.
  intros Hrand. unfold generate_id_number. split; intros Hlen.
  - destruct (Z.ltb_spec length 1) as [Hlt|_]; [lia|].
    eexists. split; [reflexivity|].
    assert (Hpow : (10 ^ length = 10 * 10 ^ (length - 1))%Z).
    { replace length with (Z.succ (length - 1)) at 1 by lia.
      apply Z.pow_succ_r. lia. }
    assert (Hpos : (0 < 10 ^ (length - 1))%Z) by (apply Z.pow_pos_nonneg; lia).
    specialize (Hrand (10 ^ length - 1 - 10 ^ (length - 1))%Z ltac:(lia)). lia.
  - destruct (Z.ltb_spec length 1) as [_|Hge]; [reflexivity | lia].
Qed.

Lemma generate_id_number_bounds_witness :
  exists n, generate_id_number (fun bound => bound - 1)%Z 3 = Ok n
            /\ (10 ^ (3 - 1) <= n < 10 ^ 3 - 1)%Z.
Proof.
  apply (proj1 (generate_id_number_bounds (fun bound => bound - 1)%Z 3
                  ltac:(intros bound Hb; lia))).
  lia.
Defined.

(** Parsing [k] hexadecimal digits appends them to the number read so
    far. *)
Lemma int_base16_from_bound (s : string) :
  (forall c, In c (list_ascii_of_string s) -> hex_digit c <> None) ->
  forall acc, (0 <= acc)%Z ->
  exists n, int_base16_from acc s = Ok n
            /\ (acc * 16 ^ Z.of_nat (String.length s) <= n
                < (acc + 1) * 16 ^ Z.of_nat (String.length s))%Z.
Proof.
  induction s as [|c s IH]; intros Hhex acc Hacc.
  - exists acc. split; [reflexivity|]. simpl. lia.
  - cbn [int_base16_from].
    assert (Hc : hex_digit c <> None) by (apply Hhex; left; reflexivity).
    destruct (hex_digit c) as [d|] eqn:Ed; [|contradiction].
    assert (Hd : (0 <= d < 16)%Z).
    { unfold hex_digit in Ed. cbv zeta in Ed.
      repeat match type of Ed with
             | context [if ?b then _ else _] => destruct b eqn:?
             end; inversion Ed; subst; lia. }
    destruct (IH (fun c' Hin => Hhex c' (or_intror Hin)) (acc * 16 + d)%Z ltac:(lia))
      as [n [Hn Hb]].
    exists n. split; [exact Hn|].
    cbn [String.length]. rewrite Nat2Z.inj_succ, Z.pow_succ_r by lia.
    assert (Hp : (0 < 16 ^ Z.of_nat (String.length s))%Z) by (apply Z.pow_pos_nonneg; lia).
    nia.
Qed.

Lemma take_length (n : nat) (s : string) :
  n <= String.length s -> String.length (take n s) = n.
Proof.
  revert s. induction n as [|n IH]; intros [|c s] H; simpl in *; try lia.
  rewrite IH; lia.
Qed.

Lemma take_In (n : nat) (s : string) (c : ascii) :
  In c (list_ascii_of_string (take n s)) -> In c (list_ascii_of_string s).
Proof.
  revert s. induction n as [|n IH]; intros [|a s]; simpl; try tauto.
  intros [H|H]; [left; exact H | right; apply IH, H].
Qed.

(** X11. A deterministic identifier fits in 64 bits: with SHA-256
    digests of 64 hexadecimal characters, [generate_deterministic_id]
    never raises and returns the decimal text of a number from 0 to
    [2 ** 64 - 1]. *)
Theorem generate_deterministic_id_bound
    (sha256_hexdigest : string -> string) (input_str : string) :
  (forall data, String.length (sha256_hexdigest data) = 64
                /\ forall c, In c (list_ascii_of_string (sha256_hexdigest data)) ->
                             hex_digit c <> None) ->
  exists n, generate_deterministic_id sha256_hexdigest input_str = Ok (str_int n)
            /\ (0 <= n < 2 ^ 64)%Z.
Proof.
  intros Hsha. destruct (Hsha input_str) as [Hlen Hhex].
  unfold generate_deterministic_id. cbv zeta.
  assert (Hl : String.length (take 16 (sha256_hexdigest input_str)) = 16)
    by (apply take_length; lia).
  destruct (int_base16_from_bound (take 16 (sha256_hexdigest input_str))
              (fun c Hin => Hhex c (take_In _ _ _ Hin)) 0%Z ltac:(lia)) as [n [Hn Hb]].
  rewrite Hl in Hb. exists n. split; [|change (2 ^ 64)%Z with (16 ^ Z.of_nat 16)%Z; lia].
  unfold int_base16.
  destruct (take 16 (sha256_hexdigest input_str)) eqn:E; [discriminate Hl|].
  rewrite Hn. reflexivity.
Qed.

Lemma generate_deterministic_id_bound_witness :
  exists n,
    generate_deterministic_id
      (fun _ => "9f86d081884c7d659a2feaa0c55ad015a3bf4f1b2b0b822cd15d6c15b0f00a08")
      "test"
    = Ok (str_int n) /\ (0 <= n < 2 ^ 64)%Z.
Proof.
  apply (generate_deterministic_id_bound
           (fun _ => "9f86d081884c7d659a2feaa0c55ad015a3bf4f1b2b0b822cd15d6c15b0f00a08")
           "test").
  intros data. split; [reflexivity|].
  intros c Hin. cbn in Hin.
  repeat (destruct Hin as [<- | Hin]; [discriminate|]). destruct Hin.
Defined.

End GeneratorsFacts.

Section SigningFacts.
Import Generators.

(** X12. The signed message of [generate_and_sign_hmac] has one order,
    fixed by the field names and not by the values: sorting always gives
    nonce, timestamp, user id, so the signature is the keyed digest of
    [nonce=..&timestamp=..&user_id=..], and the call never raises. *)
Theorem generate_and_sign_hmac_message
    (hmac_sha256_hexdigest : string -> string -> string) (randbelow : Z -> Z)
    (timestamp : Z) (secret user_id : string) :
  exists nonce,
    generate_id randbelow 12 "" = Ok nonce
    /\ generate_and_sign_hmac hmac_sha256_hexdigest randbelow timestamp secret user_id
       = Ok (mkSignedHmac nonce
               (hmac_sha256_hexdigest secret
                  (("nonce=" ++ nonce) ++ "&" ++ ("timestamp=" ++ str_int timestamp)
                   ++ "&" ++ ("user_id=" ++ user_id)))
               timestamp user_id).
Proof.
  unfold generate_and_sign_hmac.
  destruct (generate_id randbelow 12 "") as [nonce|e] eqn:E.
  - exists nonce. split; [reflexivity|]. reflexivity.
  - unfold generate_id, generate_id_number in E. cbn in E. discriminate E.
Qed.

End SigningFacts.

Section SettingsFacts.
Import Settings.

(** X13. The settings refuse a default secret outside local and remote
    environments: [_enforce_non_default_secrets] raises [ValueError]
    exactly when the environment is neither ["local"] nor ["remote"] and
    one of [SECRET_KEY], [POSTGRES_PASSWORD] and
    [FIRST_SUPERUSER_PASSWORD] is still ["changethis"]; when none of
    them is, it returns without a warning. *)
Theorem enforce_non_default_secrets_raises (self : Settings) :
  (_enforce_non_default_secrets self = Raise ValueError <->
   is_local_or_remote (ENVIRONMENT self) = false
   /\ (SECRET_KEY self = "changethis"
       \/ POSTGRES_PASSWORD self = "changethis"
       \/ FIRST_SUPERUSER_PASSWORD self = "changethis"))
  /\ (SECRET_KEY self <> "changethis" ->
      POSTGRES_PASSWORD self <> "changethis" ->
      FIRST_SUPERUSER_PASSWORD self <> "changethis" ->
      _enforce_non_default_secrets self = Ok []).
Proof.
  unfold _enforce_non_default_secrets, _check_default_secret.
  destruct (String.eqb_spec (SECRET_KEY self) "changethis") as [H1|H1],
           (String.eqb_spec (POSTGRES_PASSWORD self) "changethis") as [H2|H2],
           (String.eqb_spec (FIRST_SUPERUSER_PASSWORD self) "changethis") as [H3|H3],
           (is_local_or_remote (ENVIRONMENT self));
    cbn [app];
    (split;
     [ split;
       [ intros H; try discriminate H; auto
       | intros [He Hs]; try discriminate He; try reflexivity;
         destruct Hs as [Hs|[Hs|Hs]]; contradiction ]
     | intros N1 N2 N3; try contradiction; reflexivity ]).
Qed.

End SettingsFacts.

(** * More on the session store and the session context *)

Section StoreFacts.
Import Rbac Session.
Local Open Scope py_scope.

Ltac step :=
  unfold bind, ret, raise, lift, deref, assign, alloc, uuid4,
         redis_exists, redis_get, redis_set, redis_delete,
         setattr_state, getattr_state in *;
  cbn [fst snd heap next_ref redis trace request_state uuid4_calls uuid4_values
       users user_sessions now with_heap with_redis with_request_state
       with_uuid4_calls with_user_sessions log store id] in *.

Lemma dict_get_remove_other {V : Type} (k k0 : string) (d : list (string * V)) :
  k0 <> k -> dict_get k0 (dict_remove k d) = dict_get k0 d.
Proof.
  intros Hne. induction d as [|[k' v'] d IH]; simpl; [reflexivity|].
  destruct (String.eqb_spec k' k) as [->|Hk]; simpl.
  - destruct (String.eqb_spec k k0); [congruence | reflexivity].
  - destruct (String.eqb k' k0); [reflexivity | exact IH].
Qed.

Lemma dict_get_not_in {V : Type} (k : string) (d : list (string * V)) :
  ~ In k (map fst d) -> dict_get k d = None.
Proof.
  induction d as [|[k' v'] d IH]; simpl; [reflexivity|].
  intros H. destruct (String.eqb_spec k' k) as [->|Hk]; [tauto|]. apply IH. tauto.
Qed.

Lemma dict_get_remove_same {V : Type} (k : string) (d : list (string * V)) :
  NoDup (map fst d) -> dict_get k (dict_remove k d) = None.
Proof.
  induction d as [|[k' v'] d IH]; simpl; [reflexivity|].
  intros Hnd. inversion Hnd as [|? ? Hnotin Hnd']; subst.
  destruct (String.eqb_spec k' k) as [->|Hk].
  - apply dict_get_not_in, Hnotin.
  - simpl. destruct (String.eqb_spec k' k); [contradiction|]. apply IH, Hnd'.
Qed.

(** Two session identifiers have two keys. *)
Lemma make_key_inj (s1 s2 : string) :
  _make_key (Some s1) = _make_key (Some s2) -> s1 = s2.
Proof. unfold _make_key. simpl. intros H. inversion H. reflexivity. Qed.



(** X15. Sessions do not touch each other: saving or clearing one
    identifier leaves what [get_store] and [has] answer for another
    identifier as it was. *)
Theorem other_sessions_untouched
    (s1 s2 : string) (data : json) (ttl : option Z) (w : world) :
  s1 <> s2 ->
  fst (get_store (Some s2) (snd (save_store (Some s1) data ttl w)))
  = fst (get_store (Some s2) w)
  /\ fst (memory_has (Some s2) (snd (save_store (Some s1) data ttl w)))
     = fst (memory_has (Some s2) w)
  /\ fst (get_store (Some s2) (snd (memory_clear (Some s1) w)))
     = fst (get_store (Some s2) w)
  /\ fst (memory_has (Some s2) (snd (memory_clear (Some s1) w)))
     = fst (memory_has (Some s2) w).
Proof.
  intros Hne.
  assert (Hk : _make_key (Some s2) <> _make_key (Some s1)).
  { intros H. apply make_key_inj in H. congruence. }
  assert (Hsave : dict_get (_make_key (Some s2))
                    (redis (snd (save_store (Some s1) data ttl w)))
                  = dict_get (_make_key (Some s2)) (redis w)).
  { unfold save_store, redis_set. destruct ttl as [seconds|].
    - destruct (seconds <=? 0)%Z; cbn; [reflexivity|].
      apply (dict_get_set_other _ _ _ _ Hk).
    - cbn. apply (dict_get_set_other _ _ _ _ Hk). }
  assert (Hclear : dict_get (_make_key (Some s2))
                     (redis (snd (memory_clear (Some s1) w)))
                   = dict_get (_make_key (Some s2)) (redis w)).
  { unfold memory_clear, redis_delete. cbn. apply (dict_get_remove_other _ _ _ Hk). }
  unfold get_store, memory_has, redis_get, redis_exists, dict_contains, bind, ret.
  rewrite Hsave, Hclear.
  repeat split;
    destruct (dict_get (_make_key (Some s2)) (redis w)) as [[[v|raw|raw] t]|]; reflexivity.
Qed.

Lemma other_sessions_untouched_witness :
  fst (get_store (Some (sample_uuids 0))
         (snd (memory_clear (Some (sample_uuids 1)) corrupt_world)))
  = fst (get_store (Some (sample_uuids 0)) corrupt_world).
Proof.
  destruct (other_sessions_untouched (sample_uuids 1) (sample_uuids 0) JNull None
              corrupt_world ltac:(discriminate)) as (_ & _ & H & _).
  exact H.
Defined.

(** X16. After [clear], the session is gone from the store: with one
    entry per key in Redis, [has] answers [False] and [get_store]
    returns [None] for the cleared identifier. *)
Theorem clear_then_absent (session_id : option string) (w : world) :
  NoDup (map fst (redis w)) ->
  fst (memory_has session_id (snd (memory_clear session_id w))) = Ok false
  /\ fst (get_store session_id (snd (memory_clear session_id w))) = Ok JNull.
Proof.
  intros Hnd. unfold get_store, memory_has, memory_clear. step.
  unfold dict_contains. rewrite (dict_get_remove_same _ _ Hnd). cbn. split; reflexivity.
Qed.

Lemma clear_then_absent_witness :
  fst (memory_has (Some (sample_uuids 0))
         (snd (memory_clear (Some (sample_uuids 0)) corrupt_world))) = Ok false.
Proof.
  destruct (clear_then_absent (Some (sample_uuids 0)) corrupt_world) as [H _].
  - cbn. constructor; [intros [] | constructor].
  - exact H.
Defined.

(** X17. A session reads its own writes: on a context whose envelope
    holds a bucket, [session[key] = value] succeeds, after which
    [session[key]] returns the value, [key in session] is [True], and
    every other key reads as before. *)
Theorem setitem_then_getitem
    (w : world) (self : ref) (key : string) (value : json)
    (fields bucket : list (string * json)) :
  store (heap w self) = JObj fields ->
  dict_get "store" fields = Some (JObj bucket) ->
  fst (setitem self key value w) = Ok tt
  /\ fst (getitem self key (snd (setitem self key value w))) = Ok value
  /\ fst (contains self key (snd (setitem self key value w))) = Ok true
  /\ (forall other, other <> key ->
        fst (getitem self other (snd (setitem self key value w)))
        = fst (getitem self other w)).
Proof.
  intros Hs Hb. unfold setitem, getitem, contains. step.
  rewrite Hs. cbn [py_getitem]. rewrite Hb. cbn [py_setitem]. step.
  rewrite Nat.eqb_refl. cbn [store envelope_with_bucket py_getitem].
  rewrite dict_get_set_same. cbn [py_get py_contains]. unfold dict_contains.
  rewrite dict_get_set_same. repeat split.
  intros other Hne. rewrite ?Hs. cbn [py_getitem]. rewrite ?Hb. cbn [py_get].
  rewrite (dict_get_set_other _ _ _ _ Hne). reflexivity.
Qed.

Lemma setitem_then_getitem_witness :
  fst (getitem 0 "cart" (snd (setitem 0 "cart" (JNum 3)
         (snd (dispatch_enter app_middleware (mkRequest [] []) fresh_world)))))
  = Ok (JNum 3).
Proof.
  destruct (setitem_then_getitem
              (snd (dispatch_enter app_middleware (mkRequest [] []) fresh_world))
              0 "cart" (JNum 3)
              [("store", JObj [("__cause__", JStr "new")])]
              [("__cause__", JStr "new")] eq_refl eq_refl) as (_ & H & _).
  exact H.
Defined.

(** X18. A key that is not in the bucket: [session[key]] returns [None]
    and [key in session] is [False], both without raising, while
    [del session[key]] raises [KeyError] for that key and changes
    nothing. *)
Theorem missing_key_behaviour
    (w : world) (self : ref) (key : string) (fields bucket : list (string * json)) :
  store (heap w self) = JObj fields ->
  dict_get "store" fields = Some (JObj bucket) ->
  dict_get key bucket = None ->
  getitem self key w = (Ok JNull, w)
  /\ contains self key w = (Ok false, w)
  /\ delitem self key w = (Raise (KeyError key), w).
Proof.
  intros Hs Hb Hk. unfold getitem, contains, delitem. step.
  rewrite Hs. cbn [py_getitem]. rewrite Hb.
  cbn [py_get py_contains py_delitem]. unfold dict_contains. rewrite Hk.
  repeat split.
Qed.

Lemma missing_key_behaviour_witness :
  fst (delitem 0 "cart"
         (snd (dispatch_enter app_middleware (mkRequest [] []) fresh_world)))
  = Raise (KeyError "cart").
Proof.
  destruct (missing_key_behaviour
              (snd (dispatch_enter app_middleware (mkRequest [] []) fresh_world))
              0 "cart"
              [("store", JObj [("__cause__", JStr "new")])]
              [("__cause__", JStr "new")] eq_refl eq_refl eq_refl) as (_ & _ & H).
  rewrite H. reflexivity.
Defined.

End StoreFacts.

(** * More on the middleware *)

Section MiddlewareFacts.
Import Rbac Session.
Local Open Scope py_scope.

Ltac step :=
  unfold bind, ret, raise, lift, deref, assign, alloc, uuid4,
         redis_exists, redis_get, redis_set, redis_delete,
         setattr_state, getattr_state in *;
  cbn [fst snd heap next_ref redis trace request_state uuid4_calls uuid4_values
       users user_sessions now with_heap with_redis with_request_state
       with_uuid4_calls with_user_sessions log store id] in *.

(** X19. A session comes back: when the request presents the cookie
    that [create_session_cookie] makes for an identifier and Redis holds
    an envelope with a bucket under that identifier's key, [dispatch]
    attaches a session with that identifier and that bucket, tagged
    ["__cause__" = "success"]; it draws no new identifier, decides on no
    new cookie, and only reads Redis, with one [EXISTS] and one [GET]. *)
Theorem valid_cookie_loads_saved_session
    (mw : SessionMiddleware) (request : Request) (w : world) (sid : string)
    (bucket : list (string * json)) (ttl : option Z) :
  dict_get (session_cookie_name mw) (request_cookies request)
  = Some (cookie_value (create_session_cookie mw (Some sid))) ->
  dict_get (_make_key (Some sid)) (redis w)
  = Some (JsonText (JObj [("store", JObj bucket)]), ttl) ->
  exists w',
    dispatch_enter mw request w = (Ok (next_ref w, None), w')
    /\ heap w' (next_ref w)
       = mkSessionIntegration (Some sid)
           (JObj [("store", JObj (dict_set "__cause__" (JStr "success") bucket))])
    /\ dict_get (session_object mw) (request_state w') = Some (next_ref w)
    /\ uuid4_calls w' = uuid4_calls w
    /\ redis w' = redis w
    /\ trace w'
       = (trace w ++ [RedisExists (_make_key (Some sid)); RedisGet (_make_key (Some sid))])%list.
Proof.
  intros Hcookie Hentry. cbn [create_session_cookie cookie_value serializer_encode] in Hcookie.
  rewrite (dispatch_enter_signed mw request w _ Hcookie). cbv zeta.
  unfold decoded_get. rewrite dict_get_head.
  unfold dict_contains. rewrite Hentry.
  unfold new_SessionIntegration, load, get_store, setitem. step.
  rewrite !Nat.eqb_refl. step. rewrite Hentry. cbn. rewrite !Nat.eqb_refl. cbn.
  eexists. split; [reflexivity|]. cbn. rewrite Nat.eqb_refl.
  rewrite dict_get_set_same, <- app_assoc. repeat split.
Qed.

Lemma valid_cookie_loads_saved_session_witness :
  exists w',
    dispatch_enter app_middleware (request_with_cookie (sample_uuids 1))
      (snd (save_store (Some (sample_uuids 1)) (JObj [("store", JObj [("cart", JNum 3)])])
              (Some 900%Z) fresh_world))
    = (Ok (0, None), w')
    /\ heap w' 0
       = mkSessionIntegration (Some (sample_uuids 1))
           (JObj [("store", JObj [("cart", JNum 3); ("__cause__", JStr "success")])]).
Proof.
  destruct (valid_cookie_loads_saved_session app_middleware
              (request_with_cookie (sample_uuids 1))
              (snd (save_store (Some (sample_uuids 1))
                      (JObj [("store", JObj [("cart", JNum 3)])]) (Some 900%Z) fresh_world))
              (sample_uuids 1) [("cart", JNum 3)] (Some 900%Z) eq_refl eq_refl)
    as (w' & He & Hh & _).
  exists w'. split; [exact He | exact Hh].
Defined.

(** X20. A live session is persisted on the way out: when the envelope
    is not [None] after the handler, [dispatch] writes it under the key
    of the session with a TTL of 900 seconds, in one [SET], and the
    response gets the [Set-Cookie] header exactly when a cookie was
    decided on entry; no cookie is deleted. *)
Theorem live_session_is_saved
    (mw : SessionMiddleware) (session : ref) (cookie' : option cookie)
    (response : Response) (w : world) :
  store (heap w session) <> JNull ->
  exists w',
    dispatch_exit mw session cookie' response w
    = (Ok (match cookie' with
           | Some c => set_cookie_header c response
           | None => response
           end), w')
    /\ redis w'
       = dict_set (_make_key (id (heap w session)))
           (JsonText (store (heap w session)), Some 900%Z) (redis w)
    /\ trace w'
       = (trace w
          ++ [RedisSet (_make_key (id (heap w session)))
                (JsonText (store (heap w session))) (Some 900%Z)])%list
    /\ heap w' session = heap w session.
Proof.
  intros Hlive. unfold dispatch_exit, save, save_store. step.
  destruct (store (heap w session)) eqn:E; try contradiction;
    cbn; rewrite ?E; cbn; (eexists; split; [destruct cookie'; reflexivity|]);
    cbn; rewrite ?E; repeat split.
Qed.

Lemma live_session_is_saved_witness :
  exists w',
    dispatch_exit app_middleware 0 None (mkResponse 200 [] JNull)
      (snd (dispatch_enter app_middleware (mkRequest [] []) fresh_world))
    = (Ok (mkResponse 200 [] JNull), w')
    /\ redis w'
       = [(_make_key (Some (sample_uuids 0)),
           (JsonText (JObj [("store", JObj [("__cause__", JStr "new")])]), Some 900%Z))].
Proof.
  destruct (live_session_is_saved app_middleware 0 None (mkResponse 200 [] JNull)
              (snd (dispatch_enter app_middleware (mkRequest [] []) fresh_world))
              ltac:(discriminate)) as (w' & He & Hr & _).
  exists w'. split; [exact He | exact Hr].
Defined.

(** X21. Without a cookie, or with a cookie that does not verify,
    [dispatch] never looks at Redis: it creates a session under a fresh
    identifier with the cause in its bucket (["new"], or
    ["renew after "] followed by the error), attaches it, and decides on
    a cookie for the new identifier. *)
Theorem no_valid_cookie_new_session
    (mw : SessionMiddleware) (request : Request) (w : world) (cause : string) :
  (dict_get (session_cookie_name mw) (request_cookies request) = None /\ cause = "new")
  \/ (exists raw err,
         dict_get (session_cookie_name mw) (request_cookies request)
         = Some (Refused raw err)
         /\ cause = "renew after " ++ err) ->
  exists w',
    dispatch_enter mw request w
    = (Ok (next_ref w,
           Some (create_session_cookie mw (Some (uuid4_values w (uuid4_calls w))))), w')
    /\ heap w' (next_ref w)
       = mkSessionIntegration (Some (uuid4_values w (uuid4_calls w)))
           (JObj [("store", JObj [("__cause__", JStr cause)])])
    /\ dict_get (session_object mw) (request_state w') = Some (next_ref w)
    /\ trace w' = trace w
    /\ redis w' = redis w.
Proof.
  intros H.
  destruct (create_session_spec mw cause w) as (w' & Hc & Hheap & Hstate & Htrace & Hredis & _).
  exists w'. unfold dispatch_enter.
  destruct H as [[Hnone ->] | (raw & err & Hsome & ->)].
  - rewrite Hnone. unfold bind at 1. rewrite Hc. step. rewrite Hheap. cbn [id].
    rewrite Hstate, dict_get_set_same. repeat split; assumption.
  - rewrite Hsome. cbn [serializer_decode py_str]. unfold bind at 1. rewrite Hc. step.
    rewrite Hheap. cbn [id]. rewrite Hstate, dict_get_set_same. repeat split; assumption.
Qed.

Lemma no_valid_cookie_new_session_witness :
  exists w',
    dispatch_enter app_middleware
      (mkRequest [] [("sid", Refused "tampered" "InvalidSignature")]) fresh_world
    = (Ok (0, Some (create_session_cookie app_middleware (Some (sample_uuids 0)))), w')
    /\ heap w' 0
       = mkSessionIntegration (Some (sample_uuids 0))
           (JObj [("store", JObj [("__cause__", JStr "renew after InvalidSignature")])]).
Proof.
  destruct (no_valid_cookie_new_session app_middleware
              (mkRequest [] [("sid", Refused "tampered" "InvalidSignature")]) fresh_world
              "renew after InvalidSignature")
    as (w' & He & Hh & _).
  - right. exists "tampered", "InvalidSignature". split; reflexivity.
  - exists w'. split; [exact He | exact Hh].
Defined.

End MiddlewareFacts.

Section SkipFacts.
Import Rbac Session.

Lemma opt_eqb_eq (a b : option string) : opt_eqb a b = true <-> a = b.
Proof.
  destruct a as [x|], b as [y|]; simpl; split; try discriminate; try reflexivity.
  - intros H. apply String.eqb_eq in H. congruence.
  - intros H. inversion H. apply String.eqb_refl.
Qed.

(** X22. The skip rule: [skip_session_header_check] is true exactly when
    some configured entry either has the value ["*"] while the request
    carries the header, or has the very value the request gives for the
    header, an entry without a value matching a request without the
    header; the header is looked up as [request.headers.get] does, by its
    name in lower case; and when the check is true, [dispatch] is the
    bare handler: no session is attached and Redis is not called. *)
Theorem skip_header_rule
    (mw : SessionMiddleware) (request : Request) (call_next : M Response) (w : world) :
  (skip_session_header_check mw request = true <->
   exists h,
     In h (match skip_session_header mw with
           | SkipNone => []
           | SkipDict h => [h]
           | SkipList hs => hs
           end)
     /\ ((header_value h = Some "*"
          /\ headers_get (header_name h) request <> None)
         \/ headers_get (header_name h) request = header_value h))
  /\ (skip_session_header_check mw request = true ->
      dispatch mw request call_next w = call_next w).
Proof.
  split.
  - assert (Hm : forall h,
               skip_header_matches request h = true <->
               (header_value h = Some "*"
                /\ headers_get (header_name h) request <> None)
               \/ headers_get (header_name h) request = header_value h).
    { intros h. unfold skip_header_matches. cbv zeta.
      rewrite orb_true_iff, andb_true_iff, !opt_eqb_eq.
      destruct (headers_get (header_name h) request); simpl;
        intuition (try discriminate; try congruence). }
    unfold skip_session_header_check.
    destruct (skip_session_header mw) as [|h|hs].
    + split; [discriminate|]. intros [h [[] _]].
    + rewrite existsb_exists. split; intros [x [Hin Hx]]; exists x;
        (split; [exact Hin | apply Hm, Hx]).
    + rewrite existsb_exists. split; intros [x [Hin Hx]]; exists x;
        (split; [exact Hin | apply Hm, Hx]).
  - intros H. unfold dispatch. rewrite H. reflexivity.
Qed.

(** A configured [X-Skip] is found under the lower-case name the server
    delivers, and skips the session handling. *)
Example skip_header_any_case :
  skip_session_header_check
    (mkSessionMiddleware "change-me" true false 0 "sid" "session"
       (SkipDict (mkSkipHeader "X-Skip" (Some "*"))) "/")
    (mkRequest [("host", "example.org"); ("x-skip", "1")] [])
  = true.
Proof. reflexivity. Qed.

End SkipFacts.

(** * The session user, login and logout *)

Section AuthFacts.
Import Rbac Session.
Local Open Scope py_scope.

Ltac step :=
  unfold bind, ret, raise, lift, deref, assign, alloc, uuid4,
         redis_exists, redis_get, redis_set, redis_delete,
         setattr_state, getattr_state in *;
  cbn [fst snd heap next_ref redis trace request_state uuid4_calls uuid4_values
       users user_sessions now with_heap with_redis with_request_state
       with_uuid4_calls with_user_sessions log store id] in *.

(** X23. No session row, no user: when the envelope has no ["user"] key
    and every row of the token has expired, [get_session_user] raises
    the 401 [HTTPException] "Not authenticated" after one database
    query, and leaves the session as it was. *)
Theorem get_session_user_unauthenticated
    (model_validate : json -> result User) (user_payload : User -> json)
    (w : world) (session : ref) (fields : list (string * json)) :
  dict_get "session" (request_state w) = Some session ->
  store (heap w session) = JObj fields ->
  dict_get "user" fields = None ->
  (forall row, In row (user_sessions w) ->
               us_token row = id (heap w session) ->
               (us_expiration row < now w)%Z) ->
  get_session_user model_validate user_payload w
  = (Raise (HTTPException 401 "Not authenticated"),
     log (DbSelectSessionByToken (id (heap w session))) w).
Proof.
  intros Hstate Hstore Huser Hrows.
  unfold get_session_user, get_by_session_token, one_or_none. step.
  rewrite Hstate. step. rewrite Hstore. cbn [py_get]. rewrite Huser. cbn [truthy].
  cbv iota. step.
  assert (Hnone : filter (fun row => opt_eqb (us_token row) (id (heap w session))
                                      && Z.leb (now w) (us_expiration row))
                         (user_sessions w) = []).
  { induction (user_sessions w) as [|row rows IH]; simpl; [reflexivity|].
    destruct (opt_eqb (us_token row) (id (heap w session))
              && Z.leb (now w) (us_expiration row)) eqn:E.
    - apply andb_true_iff in E. destruct E as [Et Ee].
      apply opt_eqb_eq in Et. apply Z.leb_le in Ee.
      specialize (Hrows row (or_introl eq_refl) Et). lia.
    - apply IH. intros row' Hin. apply Hrows. right. exact Hin. }
  rewrite Hnone. reflexivity.
Qed.

Lemma get_session_user_unauthenticated_witness :
  fst (get_session_user (fun _ => Raise ValidationError) (fun _ => JNull)
         (snd (dispatch_enter app_middleware (mkRequest [] []) fresh_world)))
  = Raise (HTTPException 401 "Not authenticated").
Proof.
  rewrite (get_session_user_unauthenticated (fun _ => Raise ValidationError)
             (fun _ => JNull)
             (snd (dispatch_enter app_middleware (mkRequest [] []) fresh_world))
             0 [("store", JObj [("__cause__", JStr "new")])] eq_refl eq_refl eq_refl).
  - reflexivity.
  - intros row [].
Defined.

(** X24. One live session row: when the envelope has a bucket and no
    ["user"] key of its own and exactly one unexpired row carries the
    token, [get_session_user] returns the user of that row after one
    database query, and puts the user's payload in the bucket under
    ["user"]. *)
Theorem get_session_user_from_database
    (model_validate : json -> result User) (user_payload : User -> json)
    (w : world) (session : ref) (fields bucket : list (string * json))
    (row : UserSession) :
  dict_get "session" (request_state w) = Some session ->
  store (heap w session) = JObj fields ->
  dict_get "user" fields = None ->
  dict_get "store" fields = Some (JObj bucket) ->
  filter (fun r => opt_eqb (us_token r) (id (heap w session))
                   && Z.leb (now w) (us_expiration r))
         (user_sessions w) = [row] ->
  fst (get_session_user model_validate user_payload w) = Ok (us_user row)
  /\ fst (getitem session "user" (snd (get_session_user model_validate user_payload w)))
     = Ok (user_payload (us_user row))
  /\ trace (snd (get_session_user model_validate user_payload w))
     = (trace w ++ [DbSelectSessionByToken (id (heap w session))])%list.
Proof.
  intros Hstate Hstore Huser Hbucket Hrow.
  unfold get_session_user, get_by_session_token, one_or_none, setitem, getitem. step.
  rewrite Hstate. step. rewrite Hstore. cbn [py_get]. rewrite Huser. cbn [truthy].
  cbv iota. step. rewrite Hrow. cbn [option_map]. step.
  rewrite Hstore. cbn [py_getitem]. rewrite Hbucket. cbn [py_setitem]. step.
  rewrite Nat.eqb_refl. cbn [store envelope_with_bucket py_getitem].
  rewrite dict_get_set_same. cbn [py_get]. rewrite dict_get_set_same.
  repeat split.
Qed.

Lemma get_session_user_from_database_witness :
  fst (get_session_user (fun _ => Raise ValidationError) (fun u => JStr (email u))
         (with_user_sessions [mkUserSession (Some (sample_uuids 0)) 5000 alice]
            (snd (dispatch_enter app_middleware (mkRequest [] []) fresh_world))))
  = Ok alice.
Proof.
  destruct (get_session_user_from_database (fun _ => Raise ValidationError)
              (fun u => JStr (email u))
              (with_user_sessions [mkUserSession (Some (sample_uuids 0)) 5000 alice]
                 (snd (dispatch_enter app_middleware (mkRequest [] []) fresh_world)))
              0 [("store", JObj [("__cause__", JStr "new")])]
              [("__cause__", JStr "new")]
              (mkUserSession (Some (sample_uuids 0)) 5000 alice)
              eq_refl eq_refl eq_refl eq_refl eq_refl) as [H _].
  exact H.
Defined.

(** [authenticate] makes one query and changes nothing else. *)
Lemma authenticate_world (verify_password : string -> string -> bool)
    (email' password : string) (w : world) :
  snd (authenticate verify_password email' password w) = log (DbSelectUserByEmail email') w.
Proof.
  unfold authenticate, get_by_email, one_or_none. step.
  destruct (filter _ (users w)) as [|u [|u' us]]; step; try reflexivity.
  destruct (negb (verify_password password (hashed_password u))); [reflexivity|].
  destruct (negb (is_active u)); reflexivity.
Qed.

(** X25. [authenticate] never lets in a user it should not: a user it
    returns is a row of the users table with that email, not soft
    deleted, active, and whose stored hash verifies the password. *)
Theorem authenticate_sound (verify_password : string -> string -> bool)
    (email' password : string) (w : world) (u : User) :
  fst (authenticate verify_password email' password w) = Ok (Some u) ->
  In u (users w)
  /\ email u = email'
  /\ deleted_at u = None
  /\ is_active u = true
  /\ verify_password password (hashed_password u) = true.
Proof.
  unfold authenticate, get_by_email, one_or_none. step.
  destruct (filter _ (users w)) as [|x [|x' xs]] eqn:E; step; try discriminate.
  destruct (verify_password password (hashed_password x)) eqn:Ev; cbn [negb];
    [|discriminate].
  destruct (is_active x) eqn:Ea; cbn [negb]; [|discriminate].
  cbn. intros H. inversion H; subst x.
  assert (Hin : In u (filter (fun u0 => String.eqb (email u0) email'
                                && match deleted_at u0 with
                                   | Some _ => false
                                   | None => true
                                   end) (users w))) by (rewrite E; left; reflexivity).
  apply filter_In in Hin. destruct Hin as [Hin Hc].
  apply andb_true_iff in Hc. destruct Hc as [He Hd].
  apply String.eqb_eq in He.
  repeat split; try assumption.
  destruct (deleted_at u); [discriminate Hd | reflexivity].
Qed.

Lemma authenticate_sound_witness :
  In alice (users fresh_world) /\ is_active alice = true.
Proof.
  destruct (authenticate_sound (fun plain _ => String.eqb plain "correct horse")
              "alice@example.org" "correct horse" fresh_world alice eq_refl)
    as (Hin & _ & _ & Ha & _).
  split; [exact Hin | exact Ha].
Defined.

(** X26. A refused login leaves no trace in the session: when
    [authenticate] returns no user, [login] raises the 401
    [HTTPException] "Invalid email or password"; no session row is
    inserted and the session object is not written, the only effect
    being the query by email. *)
Theorem login_rejected
    (user_payload : User -> json) (verify_password : string -> string -> bool)
    (max_age : Z) (email' password : string) (w : world) (session : ref) :
  dict_get "session" (request_state w) = Some session ->
  fst (authenticate verify_password email' password w) = Ok None ->
  login user_payload verify_password max_age email' password w
  = (Raise (HTTPException 401 "Invalid email or password"),
     log (DbSelectUserByEmail email') w).
Proof.
  intros Hstate Hauth. unfold login.
  unfold bind at 1, getattr_state. rewrite Hstate. unfold bind at 1.
  pose proof (authenticate_world verify_password email' password w) as Hw.
  destruct (authenticate verify_password email' password w) as [r w1].
  cbn [fst snd] in *. subst. reflexivity.
Qed.

Lemma login_rejected_witness :
  fst (login (fun _ => JNull) (fun plain _ => String.eqb plain "correct horse") 604800
         "alice@example.org" "wrong"
         (snd (dispatch_enter app_middleware (mkRequest [] []) fresh_world)))
  = Raise (HTTPException 401 "Invalid email or password").
Proof.
  rewrite (login_rejected (fun _ => JNull) (fun plain _ => String.eqb plain "correct horse")
             604800 "alice@example.org" "wrong"
             (snd (dispatch_enter app_middleware (mkRequest [] []) fresh_world))
             0 eq_refl eq_refl).
  reflexivity.
Defined.

End AuthFacts.

Section LoginFacts.
Import Rbac Session.
Local Open Scope py_scope.

Ltac step :=
  unfold bind, ret, raise, lift, deref, assign, alloc, uuid4,
         redis_exists, redis_get, redis_set, redis_delete,
         setattr_state, getattr_state in *;
  cbn [fst snd heap next_ref redis trace request_state uuid4_calls uuid4_values
       users user_sessions now with_heap with_redis with_request_state
       with_uuid4_calls with_user_sessions log store id] in *.

Lemma filter_none {A : Type} (f : A -> bool) (l : list A) :
  (forall x, In x l -> f x = false) -> filter f l = [].
Proof.
  induction l as [|a l IH]; simpl; [reflexivity|]. intros H.
  rewrite (H a (or_introl eq_refl)). apply IH. intros x Hin. apply H. right. exact Hin.
Qed.



(** X28. Logging out ends the database session: once
    [UserService.logout] has returned for a token, no row carries that
    token, so [get_by_session_token] finds no user for it. *)
Theorem logout_ends_database_session (session_id : option string) (w : world) :
  fst (service_logout session_id w) = Ok tt ->
  fst (get_by_session_token session_id (snd (service_logout session_id w))) = Ok None
  /\ (forall row, In row (user_sessions (snd (service_logout session_id w))) ->
                  us_token row <> session_id).
Proof.
  unfold service_logout, get_by_session_token, one_or_none. step.
  destruct (filter (fun row => opt_eqb (us_token row) session_id) (user_sessions w))
    as [|row [|row' rows]] eqn:E; step; try discriminate; intros _.
  - assert (Hno : forall row, In row (user_sessions w) -> us_token row <> session_id).
    { intros row Hin Heq.
      assert (Hf : In row (filter (fun row => opt_eqb (us_token row) session_id)
                             (user_sessions w))).
      { apply filter_In. split; [exact Hin | apply opt_eqb_eq, Heq]. }
      rewrite E in Hf. destruct Hf. }
    split; [|exact Hno].
    rewrite filter_none; [reflexivity|].
    intros row Hin. apply andb_false_iff. left.
    destruct (opt_eqb (us_token row) session_id) eqn:Eq; [|reflexivity].
    apply opt_eqb_eq in Eq. elim (Hno row Hin Eq).
  - assert (Hno : forall r,
               In r (filter (fun row' => negb (opt_eqb (us_token row') session_id))
                       (user_sessions w)) -> us_token r <> session_id).
    { intros r Hin Heq. apply filter_In in Hin. destruct Hin as [_ Hn].
      apply opt_eqb_eq in Heq. rewrite Heq in Hn. discriminate Hn. }
    split; [|exact Hno].
    rewrite filter_none; [reflexivity|].
    intros r Hin. apply andb_false_iff. left.
    destruct (opt_eqb (us_token r) session_id) eqn:Eq; [|reflexivity].
    apply opt_eqb_eq in Eq. elim (Hno r Hin Eq).
Qed.

Lemma logout_ends_database_session_witness :
  fst (get_by_session_token (Some (sample_uuids 0))
         (snd (service_logout (Some (sample_uuids 0))
                 (with_user_sessions [mkUserSession (Some (sample_uuids 0)) 5000 alice]
                    fresh_world))))
  = Ok None.
Proof.
  destruct (logout_ends_database_session (Some (sample_uuids 0))
              (with_user_sessions [mkUserSession (Some (sample_uuids 0)) 5000 alice]
                 fresh_world) eq_refl) as [H _].
  exact H.
Defined.

End LoginFacts.

Section LogoutFacts.
Import Rbac Session.
Local Open Scope py_scope.

Ltac step :=
  unfold bind, ret, raise, lift, deref, assign, alloc, uuid4,
         redis_exists, redis_get, redis_set, redis_delete,
         setattr_state, getattr_state in *;
  cbn [fst snd heap next_ref redis trace request_state uuid4_calls uuid4_values
       users user_sessions now with_heap with_redis with_request_state
       with_uuid4_calls with_user_sessions log store id] in *.

(** [get_session_user] does not change what is attached to the request. *)
Lemma get_session_user_request_state
    (model_validate : json -> result User) (user_payload : User -> json) (w : world) :
  request_state (snd (get_session_user model_validate user_payload w)) = request_state w.
Proof.
  unfold get_session_user, get_by_session_token, one_or_none, setitem. step.
  destruct (dict_get "session" (request_state w)) as [session|]; [|reflexivity]. step.
  destruct (py_get (store (heap w session)) "user") as [user_dict|e]; [|reflexivity].
  destruct (truthy user_dict).
  - destruct (model_validate user_dict); reflexivity.
  - step. destruct (filter _ (user_sessions w)) as [|row [|row' rows]]; step;
      try reflexivity.
    cbn [option_map]. step.
    destruct (py_getitem (store (heap w session)) "store") as [b|e]; [|reflexivity].
    destruct (py_setitem b "user" (user_payload (us_user row))); reflexivity.
Qed.

(** A [logout] that returns has emptied the session object, and returns
    its message with the [auth] cookie set to false. *)
Lemma logout_leaves_no_store
    (model_validate : json -> result User) (user_payload : User -> json)
    (w w' : world) (session : ref) (out : json * list (string * header)) :
  dict_get "session" (request_state w) = Some session ->
  logout model_validate user_payload w = (Ok out, w') ->
  store (heap w' session) = JNull
  /\ out = (JObj [("message", JStr "Logged out successfully")],
            [("set-cookie", SetCookie "auth" "false")]).
Proof.
  intros Hstate. unfold logout. unfold bind at 1.
  pose proof (get_session_user_request_state model_validate user_payload w) as Hst.
  destruct (get_session_user model_validate user_payload w) as [[user|e] w1];
    cbn [snd] in Hst; [|discriminate].
  unfold bind at 1, getattr_state. rewrite Hst, Hstate.
  unfold bind at 1, deref. unfold bind at 1.
  destruct (service_logout (id (heap w1 session)) w1) as [[[]|e] w2] eqn:E;
    [|discriminate].
  unfold clear, memory_clear. step. intros H. inversion H; subst w' out.
  step. rewrite Nat.eqb_refl. split; reflexivity.
Qed.

(** X29. Logging out deletes the cookie: when [logout] returns for the
    session attached to the request, the session object has no store
    left, and [dispatch] answers with the 200 response of the route,
    which carries the [auth] cookie the route set to false, followed by
    the deletion of the session cookie; no signed session cookie is set,
    whatever was decided on entry. *)
Theorem logout_deletes_cookie
    (model_validate : json -> result User) (user_payload : User -> json)
    (mw : SessionMiddleware) (request : Request) (w w1 : world)
    (session : ref) (cookie' : option cookie)
    (out : json * list (string * header)) :
  skip_session_header_check mw request = false ->
  dispatch_enter mw request w = (Ok (session, cookie'), w1) ->
  dict_get "session" (request_state w1) = Some session ->
  fst (logout model_validate user_payload w1) = Ok out ->
  store (heap (snd (logout model_validate user_payload w1)) session) = JNull
  /\ fst (dispatch mw request (endpoint (fun m => m) (logout model_validate user_payload)) w)
     = Ok (mkResponse 200
             [("set-cookie", SetCookie "auth" "false");
              ("set-cookie", DeleteCookie (session_cookie_name mw))]
             (JObj [("message", JStr "Logged out successfully")])).
Proof.
  intros Hskip Henter Hstate Hok.
  destruct (logout model_validate user_payload w1) as [[o|e] w2] eqn:El;
    [|discriminate Hok].
  cbn [fst snd] in *. inversion Hok; subst o.
  destruct (logout_leaves_no_store model_validate user_payload w1 w2 session out
              Hstate El) as [Hnone ->].
  split; [exact Hnone|].
  unfold dispatch. rewrite Hskip. unfold bind at 1. rewrite Henter.
  unfold bind at 1. unfold endpoint. rewrite El.
  rewrite (dispatch_exit_no_store mw session cookie' _ w2 Hnone). reflexivity.
Qed.

Lemma logout_deletes_cookie_witness :
  fst (dispatch app_middleware (request_with_cookie (sample_uuids 0))
         (endpoint (fun m => m)
            (logout (fun _ => Raise ValidationError) (fun u => JStr (email u))))
         (snd (serve app_middleware (mkRequest [] [])
                 (endpoint (fun u => JStr (email u))
                    (login (fun u => JStr (email u))
                       (fun plain _ => String.eqb plain "correct horse") 604800
                       "alice@example.org" "correct horse"))
                 fresh_world)))
  = Ok (mkResponse 200
          [("set-cookie", SetCookie "auth" "false"); ("set-cookie", DeleteCookie "sid")]
          (JObj [("message", JStr "Logged out successfully")])).
Proof.
  pose (w0 := snd (serve app_middleware (mkRequest [] [])
                     (endpoint (fun u => JStr (email u))
                        (login (fun u => JStr (email u))
                           (fun plain _ => String.eqb plain "correct horse") 604800
                           "alice@example.org" "correct horse"))
                     fresh_world)).
  pose (e := dispatch_enter app_middleware (request_with_cookie (sample_uuids 0)) w0).
  assert (He : e = (Ok (1, None), snd e)).
  { rewrite (surjective_pairing e) at 1. f_equal; vm_compute; reflexivity. }
  destruct (logout_deletes_cookie (fun _ => Raise ValidationError)
              (fun u => JStr (email u)) app_middleware
              (request_with_cookie (sample_uuids 0)) w0 (snd e) 1 None
              (JObj [("message", JStr "Logged out successfully")],
               [("set-cookie", SetCookie "auth" "false")])
              eq_refl He) as [_ H].
  - vm_compute. reflexivity.
  - vm_compute. reflexivity.
  - exact H.
Defined.

End LogoutFacts.

(** * Replies the client cannot decode *)

Section DecodeFacts.
Import Rbac Session.
Local Open Scope py_scope.

(** Under the key, bytes that are no UTF-8 text: the [GET] raises
    [UnicodeDecodeError] in the client, outside the [try] of
    [get_store], so [get_store] raises it too, and so does [dispatch],
    before the handler is called and without a new session. *)
Lemma undecodable_entry_raises_decode_error
    (mw : SessionMiddleware) (request : Request) (call_next : M Response) (w : world)
    (payload : list (string * option string)) (raw : string) (ttl : option Z) :
  skip_session_header_check mw request = false ->
  dict_get (session_cookie_name mw) (request_cookies request) = Some (Signed payload) ->
  dict_get (_make_key (decoded_get (session_cookie_name mw) payload)) (redis w)
  = Some (NotText raw, ttl) ->
  fst (get_store (decoded_get (session_cookie_name mw) payload) w)
  = Raise UnicodeDecodeError
  /\ fst (dispatch mw request call_next w) = Raise UnicodeDecodeError
  /\ uuid4_calls (snd (dispatch mw request call_next w)) = uuid4_calls w.
Proof.
  intros Hskip Hcookie Hentry. split.
  { unfold get_store, bind, redis_get. rewrite Hentry. reflexivity. }
  assert (He : exists w1,
             dispatch_enter mw request w = (Raise UnicodeDecodeError, w1)
             /\ uuid4_calls w1 = uuid4_calls w).
  { rewrite (dispatch_enter_signed mw request w payload Hcookie). cbv zeta.
    unfold dict_contains. rewrite Hentry.
    unfold new_SessionIntegration, load, get_store, bind, alloc, deref, redis_get.
    cbn [fst snd heap next_ref redis with_heap log]. rewrite Nat.eqb_refl. cbn [id].
    rewrite Hentry. cbn. eexists. split; reflexivity. }
  destruct He as (w1 & He & Hu).
  assert (Hd : dispatch mw request call_next w = (Raise UnicodeDecodeError, w1)).
  { unfold dispatch. rewrite Hskip. unfold bind at 1. rewrite He. reflexivity. }
  rewrite Hd. split; [reflexivity | exact Hu].
Qed.

End DecodeFacts.
